(** * Student.py: validated CRUD over one SQLite table

    A shallow embedding of [src/Student.py]: the field validators of
    [InputValidator], the SQL statements of [DatabaseManager] over a model of
    the [students] table, and the handlers of [StudentManagementApp] that
    call them.

    Strings.  A Python [str] is a sequence of code points.  The development
    works with the code points U+0000..U+00FF: a character is an [ascii]
    read as its code, and the character classes below ([str.isspace],
    [str.isdigit], [\w], [str.lower]) are Python's own on that range. *)

From Stdlib Require Import ZArith NArith Ascii DecimalString.
From Stdlib Require DecimalPos DecimalZ.
From stdpp Require Import gmap strings list sorting.

Local Open Scope Z_scope.

(** ** Python strings and the [re] module *)

Module Py.

Definition code (c : ascii) : N := N_of_ascii c.

Definition between (lo hi : N) (c : ascii) : bool :=
  ((lo <=? code c) && (code c <=? hi))%N.

(** [str.isspace] on one character; the same set is what [str.strip()]
    removes and what [\s] matches in a [str] pattern. *)
Definition isspace (c : ascii) : bool :=
  between 9 13 c || between 28 32 c || between 133 133 c
  || between 160 160 c.

(** [str.isdigit] on one character: the decimal digits and the
    superscripts U+00B2, U+00B3 and U+00B9. *)
Definition isdigit_char (c : ascii) : bool :=
  between 48 57 c || between 178 179 c || between 185 185 c.

(** [str.isalnum] on one character. *)
Definition isalnum (c : ascii) : bool :=
  between 48 57 c || between 65 90 c || between 97 122 c
  || between 170 170 c || between 178 179 c || between 181 181 c
  || between 185 186 c || between 188 190 c || between 192 214 c
  || between 216 246 c || between 248 255 c.

(** [\w] in a [str] pattern. *)
Definition isword (c : ascii) : bool :=
  isalnum c || between 95 95 c.

(** [[a-zA-Z]] and [[a-zA-Z0-9]]. *)
Definition isletter (c : ascii) : bool :=
  between 97 122 c || between 65 90 c.
Definition isletter_or_digit (c : ascii) : bool :=
  isletter c || between 48 57 c.

Definition is_char (x : ascii) (c : ascii) : bool := (code x =? code c)%N.

Fixpoint len (s : string) : Z :=
  match s with
  | EmptyString => 0
  | String _ s' => 1 + len s'
  end.

Fixpoint chars (s : string) : list ascii :=
  match s with
  | EmptyString => []
  | String c s' => c :: chars s'
  end.

Fixpoint all_chars (p : ascii → bool) (s : string) : bool :=
  match s with
  | EmptyString => true
  | String c s' => p c && all_chars p s'
  end.

(** [bool(s)]: the empty string is falsy. *)
Definition truthy (s : string) : bool :=
  match s with
  | EmptyString => false
  | String _ _ => true
  end.

(** [s.isdigit()]: every character is a digit and there is at least one. *)
Definition isdigit (s : string) : bool :=
  truthy s && all_chars isdigit_char s.

Fixpoint lstrip (s : string) : string :=
  match s with
  | EmptyString => EmptyString
  | String c s' => if isspace c then lstrip s' else s
  end.

Fixpoint rstrip (s : string) : string :=
  match s with
  | EmptyString => EmptyString
  | String c s' =>
      match rstrip s' with
      | EmptyString => if isspace c then EmptyString else String c EmptyString
      | t => String c t
      end
  end.

(** [s.strip()] *)
Definition strip (s : string) : string := rstrip (lstrip s).

(** [s.lower()] *)
Definition lower_char (c : ascii) : ascii :=
  if between 65 90 c || between 192 214 c || between 216 222 c
  then ascii_of_N (code c + 32) else c.

Fixpoint lower (s : string) : string :=
  match s with
  | EmptyString => EmptyString
  | String c s' => String (lower_char c) (lower s')
  end.

Fixpoint startswith (p s : string) : bool :=
  match p, s with
  | EmptyString, _ => true
  | String a p', String b s' => is_char a b && startswith p' s'
  | String _ _, EmptyString => false
  end.

(** [sub in s] *)
Fixpoint contains (sub s : string) : bool :=
  startswith sub s ||
  match s with
  | EmptyString => false
  | String _ s' => contains sub s'
  end.

(** *** Regular expressions

    The patterns of the program use character classes, concatenation,
    [+] and [{2,}]; matching is by derivatives. *)

Inductive regex : Type :=
| Void
| Eps
| Cls (p : ascii → bool)
| Cat (r1 r2 : regex)
| Alt (r1 r2 : regex)
| Star (r : regex).

Definition lit (c : ascii) : regex := Cls (is_char c).
Definition plus (r : regex) : regex := Cat r (Star r).
Definition at_least_2 (r : regex) : regex := Cat r (Cat r (Star r)).

Fixpoint nullable (r : regex) : bool :=
  match r with
  | Void => false
  | Eps => true
  | Cls _ => false
  | Cat r1 r2 => nullable r1 && nullable r2
  | Alt r1 r2 => nullable r1 || nullable r2
  | Star _ => true
  end.

Fixpoint deriv (c : ascii) (r : regex) : regex :=
  match r with
  | Void => Void
  | Eps => Void
  | Cls p => if p c then Eps else Void
  | Cat r1 r2 =>
      if nullable r1
      then Alt (Cat (deriv c r1) r2) (deriv c r2)
      else Cat (deriv c r1) r2
  | Alt r1 r2 => Alt (deriv c r1) (deriv c r2)
  | Star r1 => Cat (deriv c r1) (Star r1)
  end.

(** The whole of [s] is a word of [r]. *)
Fixpoint fullmatch (r : regex) (s : string) : bool :=
  match s with
  | EmptyString => nullable r
  | String c s' => fullmatch (deriv c r) s'
  end.

Definition newline : ascii := ascii_of_N 10.

(** [s] without its last character when that is a newline. *)
Fixpoint chop_newline (s : string) : option string :=
  match s with
  | EmptyString => None
  | String c EmptyString => if is_char newline c then Some EmptyString else None
  | String c s' => String c <$> chop_newline s'
  end.

(** [re.match('^' r '$', s)] is a match: [$] holds at the end of the
    string and also just before a newline that ends the string. *)
Definition re_match_anchored (r : regex) (s : string) : bool :=
  fullmatch r s ||
  match chop_newline s with
  | Some s' => fullmatch r s'
  | None => false
  end.

(** [re.sub('[cls]', repl, s)] for a one-character class. *)
Fixpoint re_sub_class (cls : ascii → bool) (repl s : string) : string :=
  match s with
  | EmptyString => EmptyString
  | String c s' =>
      if cls c then String.append repl (re_sub_class cls repl s')
      else String c (re_sub_class cls repl s')
  end.

(** [str(z)] for an [int]: the decimal digits, after a minus sign when
    [z] is negative. *)
Definition str_of_int (z : Z) : string :=
  NilZero.string_of_int (Z.to_int z).

(** [len(l)] for a list. *)
Definition len_list {A} (l : list A) : Z := Z.of_nat (length l).

End Py.

(** ** class InputValidator *)

Module InputValidator.
Import Py.

(** [[\w\s.\-]] *)
Definition name_class (c : ascii) : bool :=
  isword c || isspace c || is_char "." c || is_char "-" c.

(** [[a-zA-Z0-9._%+-]] *)
Definition email_local_class (c : ascii) : bool :=
  isletter_or_digit c || is_char "." c || is_char "_" c || is_char "%" c
  || is_char "+" c || is_char "-" c.

(** [[a-zA-Z0-9.-]] *)
Definition email_domain_class (c : ascii) : bool :=
  isletter_or_digit c || is_char "." c || is_char "-" c.

(** [[\s\-()]] *)
Definition phone_separator (c : ascii) : bool :=
  isspace c || is_char "-" c || is_char "(" c || is_char ")" c.

(** [r'^[\w\s.\-]+$'] *)
Definition name_pattern : regex := plus (Cls name_class).

(** [r'^[a-zA-Z0-9._%+-]+@[a-zA-Z0-9.-]+\.[a-zA-Z]{2,}$'] *)
Definition email_pattern : regex :=
  Cat (plus (Cls email_local_class))
    (Cat (lit "@")
       (Cat (plus (Cls email_domain_class))
          (Cat (lit ".") (at_least_2 (Cls isletter))))).

Definition validate_name (name : string) : bool * string :=
  if negb (truthy (strip name)) then (false, "Name cannot be empty.")
  else if len (strip name) <? 2
  then (false, "Name must be at least 2 characters.")
  else if negb (re_match_anchored name_pattern name)
  then (false, "Name contains invalid characters.")
  else (true, "").

Definition validate_email (email : string) : bool * string :=
  if negb (truthy (strip email)) then (false, "Email cannot be empty.")
  else if negb (re_match_anchored email_pattern email)
  then (false, "Invalid email format.")
  else (true, "").

Definition validate_phone (phone : string) : bool * string :=
  let p := re_sub_class phone_separator "" phone in
  if negb (isdigit p) || negb ((10 <=? len p) && (len p <=? 15))
  then (false, "Phone must be 10-15 digits.")
  else (true, "").

Definition validate_pincode (pin : string) : bool * string :=
  if negb (isdigit pin) || negb ((len pin =? 5) || (len pin =? 6))
  then (false, "Pincode must be 5 or 6 digits.")
  else (true, "").

End InputValidator.

(** ** SQLite: values, the LIKE operator, the [students] table

    SQLite is not part of the repository; the statements the program issues
    are modelled from SQLite's documented behaviour. *)

Module Sqlite.
Import Py.

(** A value of a result row: the INTEGER key or a TEXT column. *)
Inductive value : Type :=
| Int (z : Z)
| Text (s : string).

Inductive exception : Type :=
| IntegrityError (msg : string)
| OperationalError (msg : string).

(** [str(e)] *)
Definition str (e : exception) : string :=
  match e with
  | IntegrityError msg => msg
  | OperationalError msg => msg
  end.

(** LIKE compares two zero-terminated strings: what follows a NUL
    character takes no part in the comparison. *)
Fixpoint c_str (s : string) : string :=
  match s with
  | EmptyString => EmptyString
  | String c s' => if (code c =? 0)%N then EmptyString else String c (c_str s')
  end.

(** LIKE folds case for the letters A-Z only. *)
Definition fold_case (c : ascii) : ascii :=
  if between 65 90 c then ascii_of_N (code c + 32) else c.

Definition like_char (p c : ascii) : bool :=
  is_char (fold_case p) (fold_case c).

(** [%] matches any sequence of characters, [_] any one character, any
    other character itself up to case. *)
Fixpoint like_from (pat : string) : string → bool :=
  match pat with
  | EmptyString => λ txt, negb (truthy txt)
  | String p pat' =>
      if is_char "%" p then
        fix skip (txt : string) : bool :=
          like_from pat' txt ||
          match txt with
          | EmptyString => false
          | String _ txt' => skip txt'
          end
      else if is_char "_" p then
        λ txt,
          match txt with
          | EmptyString => false
          | String _ txt' => like_from pat' txt'
          end
      else
        λ txt,
          match txt with
          | EmptyString => false
          | String c txt' => like_char p c && like_from pat' txt'
          end
  end.

(** [txt LIKE pat] *)
Definition like (txt pat : string) : bool :=
  like_from (c_str pat) (c_str txt).

(** The twelve TEXT columns of a row of [students]; the INTEGER PRIMARY KEY
    [student_id] is the key the row is stored under.  The program binds a
    [str] to each of them (the stripped texts of the form and a formatted
    clock reading), so a column holds a text. *)
Record row : Type := mk_row {
  student_name : string;
  student_email : string;
  student_phone : string;
  student_college : string;
  student_department : string;
  student_year : string;
  student_address : string;
  student_city : string;
  student_state : string;
  student_pincode : string;
  date_added : string;
  last_modified : string
}.

(** The database file: the table, keyed by rowid, and the AUTOINCREMENT
    counter that [sqlite_sequence] keeps for it (the largest rowid the
    table has ever held). *)
Record database : Type := mk_database {
  students : gmap Z row;
  sqlite_sequence : Z
}.

Definition empty_database : database := mk_database ∅ 0.

Definition max_rowid (t : gmap Z row) : Z :=
  foldr Z.max 0 (map_to_list t).*1.

(** AUTOINCREMENT: one more than the largest rowid that ever existed. *)
Definition next_rowid (d : database) : Z :=
  Z.max (sqlite_sequence d) (max_rowid (students d)) + 1.

(** Some row other than [self] holds [v] in column [col]. *)
Definition taken (col : row → string) (self : option Z) (v : string)
    (t : gmap Z row) : Prop :=
  map_Exists (λ k r, Some k ≠ self ∧ col r = v) t.

#[global] Instance taken_dec col self v t : Decision (taken col self v t) :=
  decide (map_Exists (λ k r, Some k ≠ self ∧ col r = v) t).

(** The two unique indices.  SQLite checks the indices of a table from the
    one created last to the one created first and reports the first that
    fails: [idx_students_phone] is created after [idx_students_email]. *)
Definition unique_indices (self : option Z) (r : row) (t : gmap Z row)
    : option exception :=
  if decide (taken student_phone self (student_phone r) t)
  then Some (IntegrityError "UNIQUE constraint failed: students.student_phone")
  else if decide (taken student_email self (student_email r) t)
  then Some (IntegrityError "UNIQUE constraint failed: students.student_email")
  else None.

(** INSERT INTO students (twelve columns) VALUES (...) *)
Definition insert (r : row) (d : database) : exception + database :=
  match unique_indices None r (students d) with
  | Some e => inl e
  | None =>
      let k := next_rowid d in
      inr (mk_database (<[k := r]> (students d)) k)
  end.

(** UPDATE students SET ... WHERE student_id = sid; on success the new
    database and the number of rows changed. *)
Definition update (sid : Z) (set : row → row) (d : database)
    : exception + database * Z :=
  match students d !! sid with
  | None => inr (d, 0)
  | Some r =>
      match unique_indices (Some sid) (set r) (students d) with
      | Some e => inl e
      | None =>
          inr (mk_database (<[sid := set r]> (students d))
                 (sqlite_sequence d), 1)
      end
  end.

(** DELETE FROM students WHERE student_id = sid *)
Definition delete_from (sid : Z) (d : database) : exception + database :=
  inr (mk_database (delete sid (students d)) (sqlite_sequence d)).

(** ORDER BY student_id DESC *)
Definition id_desc (x y : Z * row) : Prop := y.1 ≤ x.1.

#[global] Instance id_desc_dec : RelDecision id_desc :=
  λ x y, decide (y.1 ≤ x.1).

Definition order_by_id_desc (l : list (Z * row)) : list (Z * row) :=
  merge_sort id_desc l.

(** SELECT student_id, student_name, ..., last_modified *)
Definition select_columns (kr : Z * row) : list value :=
  [ Int kr.1; Text (student_name kr.2); Text (student_email kr.2);
    Text (student_phone kr.2); Text (student_college kr.2);
    Text (student_department kr.2); Text (student_year kr.2);
    Text (student_address kr.2); Text (student_city kr.2);
    Text (student_state kr.2); Text (student_pincode kr.2);
    Text (date_added kr.2); Text (last_modified kr.2) ].

(** SELECT (the thirteen columns) FROM students WHERE w
    ORDER BY student_id DESC *)
Definition select (w : row → bool) (d : database) : list (list value) :=
  select_columns <$>
    order_by_id_desc (filter (λ kr, w kr.2) (map_to_list (students d))).

(** Column names are compared without regard to the case of the letters
    A-Z. *)
Fixpoint fold_name (s : string) : string :=
  match s with
  | EmptyString => EmptyString
  | String c s' => String (fold_case c) (fold_name s')
  end.

Definition same_name (a b : string) : bool :=
  String.eqb (fold_name a) (fold_name b).

(** ALTER TABLE students ADD COLUMN name typ, on the columns of the table as
    PRAGMA table_info lists them (name and type); it lists none when there
    is no table [students]. *)
Definition add_column (name typ : string) (columns : list (string * string))
    : exception + list (string * string) :=
  match columns with
  | [] => inl (OperationalError "no such table: students")
  | _ =>
      if existsb (λ col, same_name name col.1) columns
      then inl (OperationalError ("duplicate column name: " +:+ name))
      else inr (columns ++ [(name, typ)])
  end.

End Sqlite.

(** ** The [csv] module: a writer of the default dialect

    Fields are separated by commas and a row ends in CR LF; a field is put
    between double quotes, with its double quotes doubled, when it holds a
    comma, a double quote, a CR or a LF, or when it is empty and alone in its
    row. *)

Module Csv.
Import Py Sqlite.

Definition quotechar : ascii := ascii_of_N 34.
Definition cr : ascii := ascii_of_N 13.
Definition lf : ascii := ascii_of_N 10.

Definition lineterminator : string := String cr (String lf EmptyString).

Definition special (c : ascii) : bool :=
  is_char "," c || is_char quotechar c || is_char cr c || is_char lf c.

Fixpoint any_char (p : ascii → bool) (s : string) : bool :=
  match s with
  | EmptyString => false
  | String c s' => p c || any_char p s'
  end.

Fixpoint double_quotes (s : string) : string :=
  match s with
  | EmptyString => EmptyString
  | String c s' =>
      if is_char quotechar c
      then String quotechar (String quotechar (double_quotes s'))
      else String c (double_quotes s')
  end.

(** What the writer makes of a value that is not a [str]: its [str()]. *)
Definition to_text (v : value) : string :=
  match v with
  | Int z => str_of_int z
  | Text s => s
  end.

Definition write_field (quote_empty : bool) (field : string) : string :=
  if any_char special field || (quote_empty && negb (truthy field))
  then String quotechar (double_quotes field +:+ String quotechar EmptyString)
  else field.

Fixpoint join_fields (quote_empty : bool) (fields : list string) : string :=
  match fields with
  | [] => EmptyString
  | [f] => write_field quote_empty f
  | f :: fs =>
      write_field quote_empty f +:+ String "," (join_fields quote_empty fs)
  end.

(** [writer.writerow(row)]: the text written. *)
Definition writerow (row : list value) : string :=
  join_fields (bool_decide (length row = 1%nat)) (to_text <$> row)
  +:+ lineterminator.

(** [writer.writerows(rows)] *)
Fixpoint writerows (rows : list (list value)) : string :=
  match rows with
  | [] => EmptyString
  | row :: rows' => writerow row +:+ writerows rows'
  end.

(** *** Reading back what the writer wrote

    A reader of fields and rows as the writer above writes them. *)






End Csv.

(** ** class DatabaseManager *)

Module DatabaseManager.
Import Py Sqlite.

(** The ten keys [get_form] returns. *)
Record fields : Type := mk_fields {
  name : string;
  email : string;
  phone : string;
  college : string;
  department : string;
  year : string;
  address : string;
  city : string;
  state : string;
  pincode : string
}.

(** The dict [add_student] passes to [insert_student]. *)
Record insert_dict : Type := mk_insert_dict {
  inserted :> fields;
  insert_date_added : string;
  insert_last_modified : string
}.

(** The dict [update_student] of the application passes on. *)
Record update_dict : Type := mk_update_dict {
  updated :> fields;
  update_last_modified : string
}.

Definition insert_values (data : insert_dict) : row :=
  mk_row (name data) (email data) (phone data) (college data)
    (department data) (year data) (address data) (city data)
    (state data) (pincode data)
    (insert_date_added data) (insert_last_modified data).

Definition update_set (data : update_dict) (r : row) : row :=
  mk_row (name data) (email data) (phone data) (college data)
    (department data) (year data) (address data) (city data)
    (state data) (pincode data)
    (date_added r) (update_last_modified data).

Definition insert_student (data : insert_dict) (self : database)
    : bool * string * database :=
  match Sqlite.insert (insert_values data) self with
  | inr self' => (true, "", self')
  | inl (IntegrityError e) =>
      let msg := lower e in
      if contains "email" msg then (false, "Email already exists.", self)
      else if contains "phone" msg then (false, "Phone already exists.", self)
      else (false, "Integrity error: " +:+ e, self)
  | inl e => (false, str e, self)
  end.

Definition get_all_students (self : database) : list (list value) :=
  select (λ _, true) self.

Definition update_student (student_id : Z) (data : update_dict)
    (self : database) : bool * string * database :=
  match Sqlite.update student_id (update_set data) self with
  | inr (self', rowcount) =>
      if rowcount =? 0
      then (false, "No row updated (ID may not exist).", self')
      else (true, "", self')
  | inl (IntegrityError e) =>
      let msg := lower e in
      if contains "email" msg then (false, "Email already exists.", self)
      else if contains "phone" msg then (false, "Phone already exists.", self)
      else (false, e, self)
  | inl e => (false, str e, self)
  end.

Definition delete_student (student_id : Z) (self : database)
    : bool * string * database :=
  match Sqlite.delete_from student_id self with
  | inr self' => (true, "", self')
  | inl e => (false, str e, self)
  end.

Definition search_students (term : string) (self : database)
    : list (list value) :=
  let q := "%" +:+ term +:+ "%" in
  select
    (λ r, like (student_name r) q || like (student_email r) q
          || like (student_phone r) q || like (student_college r) q
          || like (student_department r) q || like (student_city r) q)
    self.

(** The columns [initialize_database] creates a new table with. *)
Definition created_columns : list (string * string) :=
  [ ("student_id", "INTEGER"); ("student_name", "TEXT");
    ("student_email", "TEXT"); ("student_phone", "TEXT");
    ("student_college", "TEXT"); ("student_department", "TEXT");
    ("student_year", "TEXT"); ("student_address", "TEXT");
    ("student_city", "TEXT"); ("student_state", "TEXT");
    ("student_pincode", "TEXT"); ("date_added", "TEXT");
    ("last_modified", "TEXT") ].

Definition required : list (string * string) :=
  [ ("student_id", "INTEGER"); ("student_name", "TEXT");
    ("student_email", "TEXT"); ("student_phone", "TEXT");
    ("student_college", "TEXT"); ("student_department", "TEXT");
    ("student_year", "TEXT"); ("student_address", "TEXT");
    ("student_city", "TEXT"); ("student_state", "TEXT");
    ("student_pincode", "TEXT"); ("date_added", "TEXT");
    ("last_modified", "TEXT") ].

(** The loop of [update_schema]: [cols] is the list of names read before the
    loop, [columns] the columns of the table as the loop has left them.  An
    exception of ALTER TABLE is not caught and ends the loop. *)
Fixpoint add_missing (cols : list string) (todo : list (string * string))
    (columns : list (string * string)) : exception + list (string * string) :=
  match todo with
  | [] => inr columns
  | (name, typ) :: todo' =>
      if bool_decide (name ∈ cols) then add_missing cols todo' columns
      else
        match add_column name typ columns with
        | inl e => inl e
        | inr columns' => add_missing cols todo' columns'
        end
  end.

(** [update_schema], on the columns of the [students] table. *)
Definition update_schema (columns : list (string * string))
    : exception + list (string * string) :=
  let cols := columns.*1 in
  add_missing cols required columns.

End DatabaseManager.

(** ** class StudentManagementApp

    The handlers behind the buttons.  What the user sees is recorded as a
    list of [event]s; the reading of [datetime.now()] a handler takes and the
    answer to its confirmation dialog are arguments of the handler. *)

Module StudentManagementApp.
Import Py Sqlite InputValidator.

Inductive widget : Type :=
| name_entry
| email_entry
| phone_entry
| pincode_entry.

Inductive event : Type :=
| showerror (title msg : string)
| showinfo (title msg : string)
| showwarning (title msg : string)
| focus (w : widget).

(** The contents of the entries and comboboxes. *)
Record form : Type := mk_form {
  name_text : string;
  email_text : string;
  phone_text : string;
  college_text : string;
  department_text : string;
  year_text : string;
  address_text : string;
  city_text : string;
  state_text : string;
  pincode_text : string;
  search_text : string
}.

Record app : Type := mk_app {
  db : database;
  entries : form;
  tree : list (list value)
}.

Definition get_form (self : app)
    : list event * option DatabaseManager.fields :=
  let name := strip (name_text (entries self)) in
  let email := strip (email_text (entries self)) in
  let phone :=
    re_sub_class phone_separator "" (strip (phone_text (entries self))) in
  let college := strip (college_text (entries self)) in
  let department := strip (department_text (entries self)) in
  let year := strip (year_text (entries self)) in
  let address := strip (address_text (entries self)) in
  let city := strip (city_text (entries self)) in
  let state := strip (state_text (entries self)) in
  let pincode := strip (pincode_text (entries self)) in
  let '(ok, msg) := validate_name name in
  if negb ok then ([showerror "Validation" msg; focus name_entry], None)
  else
  let '(ok, msg) := validate_email email in
  if negb ok then ([showerror "Validation" msg; focus email_entry], None)
  else
  let '(ok, msg) := validate_phone phone in
  if negb ok then ([showerror "Validation" msg; focus phone_entry], None)
  else
  let '(ok, msg) := validate_pincode pincode in
  if negb ok then ([showerror "Validation" msg; focus pincode_entry], None)
  else
    ([], Some (DatabaseManager.mk_fields name email phone college
                 department year address city state pincode)).

Definition clear_fields (self : app) : app :=
  mk_app (db self) (mk_form "" "" "" "" "" "" "" "" "" "" "") (tree self).

Definition load_students (self : app) : app :=
  mk_app (db self) (entries self)
    (DatabaseManager.get_all_students (db self)).

Definition with_db (d : database) (self : app) : app :=
  mk_app d (entries self) (tree self).

Definition add_student (now : string) (self : app) : list event * app :=
  match get_form self with
  | (shown, None) => (shown, self)
  | (shown, Some data) =>
      let data := DatabaseManager.mk_insert_dict data now now in
      let '(success, err, d) :=
        DatabaseManager.insert_student data (db self) in
      if success
      then (shown ++ [showinfo "Success" "Student added"],
            load_students (clear_fields (with_db d self)))
      else (shown ++ [showerror "Error" err], with_db d self)
  end.

(** [sel] is the id in column 0 of the selected row of the table, [None]
    when no row is selected. *)
Definition update_student (sel : option Z) (now : string) (self : app)
    : list event * app :=
  match sel with
  | None => ([showwarning "Select" "Select a row to update"], self)
  | Some sid =>
      match get_form self with
      | (shown, None) => (shown, self)
      | (shown, Some data) =>
          let data := DatabaseManager.mk_update_dict data now in
          let '(success, err, d) :=
            DatabaseManager.update_student sid data (db self) in
          if success
          then (shown ++ [showinfo "Success" "Updated"],
                load_students (clear_fields (with_db d self)))
          else (shown ++ [showerror "Error" err], with_db d self)
      end
  end.

Definition delete_student (sel : option Z) (askyesno : bool) (self : app)
    : list event * app :=
  match sel with
  | None => ([showwarning "Select" "Select a row to delete"], self)
  | Some sid =>
      if askyesno then
        let '(success, err, d) :=
          DatabaseManager.delete_student sid (db self) in
        if success
        then ([showinfo "Deleted" "Student deleted"],
              load_students (clear_fields (with_db d self)))
        else ([showerror "Error" err], with_db d self)
      else ([], self)
  end.

Definition search_students (self : app) : app :=
  let term := strip (search_text (entries self)) in
  if negb (truthy term) then load_students self
  else mk_app (db self) (entries self)
         (DatabaseManager.search_students term (db self)).

Definition export_header : list value :=
  [ Text "ID"; Text "Name"; Text "Email"; Text "Phone"; Text "College";
    Text "Department"; Text "Year"; Text "Address"; Text "City";
    Text "State"; Text "Pincode"; Text "Date Added"; Text "Last Modified" ].

(** [path] is what the save dialog returns, the empty string when it is
    cancelled.  Besides the events, the text written to the file at [path]
    when that file can be opened for writing. *)
Definition export_data (path : string) (self : app)
    : list event * option string :=
  if negb (truthy path) then ([], None)
  else
    let rows := DatabaseManager.get_all_students (db self) in
    ([showinfo "Export"
        ("Exported " +:+ str_of_int (len_list rows) +:+ " rows")],
     Some (Csv.writerow export_header +:+ Csv.writerows rows)).

(** What the user does: fill the entries (by typing, or by selecting a row
    of the table, which copies it into the form), press a button, release a
    key in the search entry. *)
Inductive command : Type :=
| Fill (f : form)
| Add (now : string)
| Update (sel : option Z) (now : string)
| Delete (sel : option Z) (askyesno : bool)
| Search
| ShowAll
| Export (path : string).

Definition handle (c : command) (self : app) : list event * app :=
  match c with
  | Fill f => ([], mk_app (db self) f (tree self))
  | Add now => add_student now self
  | Update sel now => update_student sel now self
  | Delete sel askyesno => delete_student sel askyesno self
  | Search => ([], search_students self)
  | ShowAll => ([], load_students self)
  | Export path => ((export_data path self).1, self)
  end.

Definition run (cs : list command) (self : app) : app :=
  foldl (λ a c, (handle c a).2) self cs.

End StudentManagementApp.

(** ** The statements of the specification, in its own words *)

Module Spec.
Import Py Sqlite InputValidator StudentManagementApp.

(** What is left of a phone number once spaces (any whitespace), hyphens
    and parentheses are stripped. *)
Definition remaining (s : string) : list ascii :=
  filter (λ c, negb (phone_separator c)) (chars s).

(** The codes of the characters [validate_phone] removes: the whitespace
    U+0009..U+000D, U+001C..U+0020, U+0085 and U+00A0, the parentheses and
    the hyphen. *)
Definition stripped_codes : list N :=
  [9; 10; 11; 12; 13; 28; 29; 30; 31; 32; 133; 160; 40; 41; 45]%N.

(** The codes of the characters [str.isdigit] takes for digits: 0-9 and the
    superscripts U+00B2, U+00B3 and U+00B9. *)
Definition digit_codes : list N :=
  [48; 49; 50; 51; 52; 53; 54; 55; 56; 57; 178; 179; 185]%N.

(** What is left of a phone number once the characters of the codes above
    are removed. *)
Definition kept (s : string) : list ascii :=
  filter (λ c, code c ∉ stripped_codes) (chars s).

(** The reading of the phone rule with the space, the hyphen and the
    parentheses as the only characters stripped and 0-9 as the only
    digits. *)
Definition space_hyphen_paren (c : ascii) : bool :=
  (code c =? 32)%N || (code c =? 45)%N || (code c =? 40)%N
  || (code c =? 41)%N.

Definition decimal_digit (c : ascii) : bool :=
  ((48 <=? code c) && (code c <=? 57))%N.

Definition accepts_decimal_phone (s : string) : bool :=
  let left := filter (λ c, negb (space_hyphen_paren c)) (chars s) in
  forallb decimal_digit left
  && bool_decide (10 ≤ length left ≤ 15)%nat.

(** The four field checks of a full record, in the order name, email,
    phone, pincode, each on the text [get_form] reads for it. *)
Definition checks (self : app) : list (widget * (bool * string)) :=
  [ (name_entry, validate_name (strip (name_text (entries self))));
    (email_entry, validate_email (strip (email_text (entries self))));
    (phone_entry,
      validate_phone
        (re_sub_class phone_separator ""
           (strip (phone_text (entries self)))));
    (pincode_entry,
      validate_pincode (strip (pincode_text (entries self)))) ].

(** The first check that fails; the checks after it are not looked at. *)
Fixpoint first_failure (cs : list (widget * (bool * string)))
    : option (widget * string) :=
  match cs with
  | [] => None
  | (w, (ok, msg)) :: cs' => if ok then first_failure cs' else Some (w, msg)
  end.

(** The record [get_form] builds from the entries. *)
Definition form_fields (self : app) : DatabaseManager.fields :=
  DatabaseManager.mk_fields
    (strip (name_text (entries self)))
    (strip (email_text (entries self)))
    (re_sub_class phone_separator "" (strip (phone_text (entries self))))
    (strip (college_text (entries self)))
    (strip (department_text (entries self)))
    (strip (year_text (entries self)))
    (strip (address_text (entries self)))
    (strip (city_text (entries self)))
    (strip (state_text (entries self)))
    (strip (pincode_text (entries self))).

(** No row was modified before it was added.  Timestamps are the texts
    [strftime('%Y-%m-%d %H:%M:%S')] yields and are compared as texts. *)
Definition timestamps_ok (d : database) : Prop :=
  map_Forall (λ _ r, (date_added r ≤ last_modified r)%string) (students d).

(** Each row's id is strictly below the ids of the rows before it. *)
Definition descending (l : list (Z * row)) : Prop :=
  StronglySorted (λ x y, y.1 < x.1) l.

(** The rows of the table, by id descending. *)
Definition ordered_rows (d : database) : list (Z * row) :=
  order_by_id_desc (map_to_list (students d)).

End Spec.

(** ** Sequences of calls of the database manager *)

Module Requests.
Import Sqlite DatabaseManager.

Inductive request : Type :=
| Insert (data : insert_dict)
| Update (sid : Z) (data : update_dict)
| Delete (sid : Z).

Definition perform (q : request) (d : database) : bool * string * database :=
  match q with
  | Insert data => insert_student data d
  | Update sid data => update_student sid data d
  | Delete sid => delete_student sid d
  end.

Definition run (qs : list request) (d : database) : database :=
  foldl (λ d q, (perform q d).2) d qs.

(** No two rows hold the same text in column [col]. *)
Definition unique (col : row → string) (d : database) : Prop :=
  ∀ k1 k2 r1 r2,
    students d !! k1 = Some r1 → students d !! k2 = Some r2 →
    col r1 = col r2 → k1 = k2.

(** The WHERE clause of [search_students]. *)
Definition search_where (term : string) (r : row) : bool :=
  let q := "%" +:+ term +:+ "%" in
  like (student_name r) q || like (student_email r) q
  || like (student_phone r) q || like (student_college r) q
  || like (student_department r) q || like (student_city r) q.

(** The first column of a result row is the id [sid]. *)
Definition is_id (sid : Z) (cols : list value) : bool :=
  match cols with
  | Int k :: _ => k =? sid
  | _ => false
  end.

(** Two characters are the same, or one is a letter A-Z (codes 65..90) and
    the other the lower-case letter a-z of it (32 above). *)
Definition same_up_to_case (a b : ascii) : bool :=
  (Py.code a =? Py.code b)%N
  || ((65 <=? Py.code a) && (Py.code a <=? 90)
      && (Py.code b =? Py.code a + 32))%N
  || ((65 <=? Py.code b) && (Py.code b <=? 90)
      && (Py.code a =? Py.code b + 32))%N.

(** [s] begins with [p], and [s] contains [sub], up to the case of the
    letters A-Z. *)
Fixpoint istartswith (p s : string) : bool :=
  match p, s with
  | EmptyString, _ => true
  | String a p', String b s' => same_up_to_case a b && istartswith p' s'
  | String _ _, EmptyString => false
  end.

Fixpoint icontains (sub s : string) : bool :=
  istartswith sub s ||
  match s with
  | EmptyString => false
  | String _ s' => icontains sub s'
  end.

(** A property of all characters, checked on each of the 256. *)
Definition both (f : bool → bool) : bool := f true && f false.

Definition every_char (p : ascii → bool) : bool :=
  both (λ b0, both (λ b1, both (λ b2, both (λ b3,
  both (λ b4, both (λ b5, both (λ b6, both (λ b7,
    p (Ascii b0 b1 b2 b3 b4 b5 b6 b7))))))))).

(** An id that fits SQLite's INTEGER, a signed integer of 64 bits; the
    [sqlite3] module refuses to bind any other [int]. *)
Definition int64 (z : Z) : Prop := - 2 ^ 63 ≤ z < 2 ^ 63.

(** The number of bytes of a text in UTF-8. *)
Fixpoint utf8_len (s : string) : Z :=
  match s with
  | EmptyString => 0
  | String c s' => (if (Py.code c <? 128)%N then 1 else 2) + utf8_len s'
  end.

(** A search term whose pattern [%term%] is within the 50000 bytes SQLite
    allows a LIKE pattern. *)
Definition fits_pattern (term : string) : Prop := utf8_len term ≤ 49998.

(** A search term without [%], [_] and NUL. *)
Definition plain (term : string) : bool :=
  Py.all_chars
    (λ c, negb (Py.is_char "%" c || Py.is_char "_" c
                || (Py.code c =? 0)%N))
    term.

End Requests.

(** ** Shapes of valid texts *)

Module Valid.
Import Py Sqlite InputValidator DatabaseManager.

(** local@domain.tld: a local part of letters, digits and [._%+-], a domain
    of letters, digits, dots and hyphens, and a last segment of two or more
    letters. *)
Definition email_shape (s : string) : Prop :=
  ∃ local domain tld,
    s = local +:+ String "@" (domain +:+ String "." tld)
    ∧ truthy local = true ∧ all_chars email_local_class local = true
    ∧ truthy domain = true ∧ all_chars email_domain_class domain = true
    ∧ 2 ≤ len tld ∧ all_chars isletter tld = true.

(** What [get_form] lets through: texts without whitespace at their ends, a
    name of two or more characters of the name class, an email of the shape
    above, a phone of 10 to 15 digits and a pincode of 5 or 6 digits. *)
Definition valid_fields (data : fields) : Prop :=
  (strip (name data) = name data ∧ strip (email data) = email data
   ∧ strip (phone data) = phone data ∧ strip (college data) = college data
   ∧ strip (department data) = department data
   ∧ strip (year data) = year data ∧ strip (address data) = address data
   ∧ strip (city data) = city data ∧ strip (state data) = state data
   ∧ strip (pincode data) = pincode data)
  ∧ (2 ≤ len (name data) ∧ all_chars name_class (name data) = true)
  ∧ email_shape (email data)
  ∧ (all_chars isdigit_char (phone data) = true
     ∧ 10 ≤ len (phone data) ≤ 15)
  ∧ (all_chars isdigit_char (pincode data) = true
     ∧ (len (pincode data) = 5 ∨ len (pincode data) = 6)).

Definition row_fields (r : row) : fields :=
  mk_fields (student_name r) (student_email r) (student_phone r)
    (student_college r) (student_department r) (student_year r)
    (student_address r) (student_city r) (student_state r)
    (student_pincode r).

(** Every row of the table holds valid fields. *)
Definition valid_table (d : database) : Prop :=
  map_Forall (λ _ r, valid_fields (row_fields r)) (students d).

(** Every row the table of the window shows is a row of the listing of the
    database. *)
Definition tree_in_sync (self : StudentManagementApp.app) : Prop :=
  ∀ cols, cols ∈ StudentManagementApp.tree self →
          cols ∈ get_all_students (StudentManagementApp.db self).

(** A text that does not begin with whitespace. *)
Definition starts_nonspace (s : string) : bool :=
  match s with
  | EmptyString => true
  | String c _ => negb (isspace c)
  end.

(** The form filled with the fields of a record. *)
Definition filled (data : fields) (search : string)
    : StudentManagementApp.form :=
  StudentManagementApp.mk_form (name data) (email data) (phone data)
    (college data) (department data) (year data) (address data)
    (city data) (state data) (pincode data) search.

End Valid.

(** ** Columns of the table and required columns *)

Module Schema.
Import Sqlite DatabaseManager.

(** A required name that is not among the names of the table as written
    but is the name of one of its columns up to the case of letters. *)
Definition clash (columns : list (string * string)) (name : string) : bool :=
  negb (bool_decide (name ∈ columns.*1))
  && existsb (λ col, same_name name col.1) columns.

Definition first_clash (columns : list (string * string))
    : option (string * string) :=
  List.find (λ nt, clash columns nt.1) required.

(** The required columns whose names the table does not have. *)
Definition missing (columns : list (string * string))
    : list (string * string) :=
  filter (λ nt, nt.1 ∉ columns.*1) required.

(** No name of the list is the name of an earlier one up to case. *)
Fixpoint distinct_names (todo : list (string * string)) : bool :=
  match todo with
  | [] => true
  | a :: rest =>
      forallb (λ b, negb (same_name b.1 a.1)) rest && distinct_names rest
  end.

End Schema.

(** ** Sample data *)

Module Sample.
Import Sqlite DatabaseManager.

Definition ann_fields : fields :=
  mk_fields "Ann Lee" "ann@x.com" "9876543210" "City College"
    "Computer Science" "1st Year" "1 Main Road" "Bengaluru" "Karnataka"
    "560001".

Definition bob_fields : fields :=
  mk_fields "Bob Ray" "bob@x.com" "1234567890" "City College"
    "Electronics" "2nd Year" "2 Main Road" "Mysuru" "Karnataka" "570001".

Definition ann : insert_dict :=
  mk_insert_dict ann_fields "2024-11-03 01:30:00" "2024-11-03 01:30:00".

Definition bob : insert_dict :=
  mk_insert_dict bob_fields "2024-11-03 01:40:00" "2024-11-03 01:40:00".

(** The table after Ann was added to an empty database, and after Bob was
    added to that. *)
Definition with_ann : database :=
  mk_database {[ 1 := insert_values ann ]} 1.

Definition with_ann_bob : database :=
  mk_database (<[ 2 := insert_values bob ]> {[ 1 := insert_values ann ]}) 2.

(** The application showing that table, with Ann's data typed into the
    form. *)
Definition ann_typed : StudentManagementApp.app :=
  StudentManagementApp.mk_app with_ann
    (StudentManagementApp.mk_form "Ann Lee" "ann@x.com" "98-765 (43210)"
       "City College" "Computer Science" "1st Year" "1 Main Road"
       "Bengaluru" "Karnataka" "560001" "")
    (get_all_students with_ann).

(** That application after an update of row 1 stamped 01:45:00, and after
    one stamped 01:10:00. *)
Definition ann_updated_later : StudentManagementApp.app :=
  (StudentManagementApp.update_student (Some 1) "2024-11-03 01:45:00"
     ann_typed).2.

Definition ann_updated_earlier : StudentManagementApp.app :=
  (StudentManagementApp.update_student (Some 1) "2024-11-03 01:10:00"
     ann_typed).2.

(** Ten times the superscript two, and a phone number with a tab in it. *)
Definition superscript_twos : string :=
  let c := ascii_of_N 178 in
  String c (String c (String c (String c (String c
    (String c (String c (String c (String c (String c EmptyString))))))))).

Definition tabbed_phone : string :=
  "98765" +:+ String (ascii_of_N 9) "43210".

(** An early version of the table, with three of the columns. *)
Definition old_columns : list (string * string) :=
  [ ("student_id", "INTEGER"); ("student_email", "TEXT");
    ("student_phone", "TEXT") ].

(** The application on an empty database with Ann's data typed in. *)
Definition ann_typing : StudentManagementApp.app :=
  StudentManagementApp.mk_app empty_database
    (StudentManagementApp.mk_form "Ann Lee" "ann@x.com" "98-765 (43210)"
       "City College" "Computer Science" "1st Year" "1 Main Road"
       "Bengaluru" "Karnataka" "560001" "")
    [].

(** That application after Add has been pressed at 01:30:00. *)
Definition ann_added : StudentManagementApp.app :=
  StudentManagementApp.run [StudentManagementApp.Add "2024-11-03 01:30:00"]
    ann_typing.

End Sample.

(** * Properties *)

Import Py Sqlite InputValidator.

(** ** Strings *)

Section strings.
Implicit Types (s : string) (p : ascii → bool).

Lemma len_length s : len s = Z.of_nat (length (chars s)).
Proof. induction s as [|c s IH]; simpl; [done|]. rewrite IH. lia. Qed.

Lemma all_chars_Forall p s :
  all_chars p s = true ↔ Forall (λ c, p c) (chars s).
Proof.
  induction s as [|c s IH]; simpl.
  - split; [constructor|done].
  - rewrite andb_true_iff, Forall_cons, IH.
    by rewrite <-Is_true_true.
Qed.

Lemma truthy_chars s : truthy s = true ↔ chars s ≠ [].
Proof. destruct s; simpl; split; done. Qed.

Lemma isdigit_Forall s :
  isdigit s = true
  ↔ chars s ≠ [] ∧ Forall (λ c, isdigit_char c) (chars s).
Proof.
  unfold isdigit. by rewrite andb_true_iff, truthy_chars, all_chars_Forall.
Qed.

(** Replacing every character of a class by the empty string removes the
    characters of the class and keeps the others in place. *)
Lemma re_sub_class_empty p s :
  chars (re_sub_class p "" s) = filter (λ c, negb (p c)) (chars s).
Proof.
  induction s as [|c s IH]; simpl; [done|].
  destruct (p c) eqn:Hc; simpl.
  - rewrite filter_cons_False; [done|]. rewrite Hc. simpl. tauto.
  - rewrite filter_cons_True; [by f_equal|]. rewrite Hc. simpl. tauto.
Qed.

End strings.

(** ** Regular expressions *)

Section regex.
Implicit Types (r : regex) (s : string) (p : ascii → bool).

Lemma fullmatch_Cat_Void r s : fullmatch (Cat Void r) s = false.
Proof. induction s as [|c s IH]; [done|exact IH]. Qed.

Lemma fullmatch_Alt r1 r2 s :
  fullmatch (Alt r1 r2) s = fullmatch r1 s || fullmatch r2 s.
Proof.
  revert r1 r2. induction s as [|c s IH]; intros r1 r2; [done|].
  simpl. apply IH.
Qed.

Lemma fullmatch_Eps_Star_Cls p s :
  fullmatch (Cat Eps (Star (Cls p))) s = all_chars p s.
Proof.
  induction s as [|c s IH]; [done|].
  change (fullmatch (Cat Eps (Star (Cls p))) (String c s))
    with (fullmatch
            (Alt (Cat Void (Star (Cls p)))
                 (Cat (if p c then Eps else Void) (Star (Cls p)))) s).
  rewrite fullmatch_Alt, fullmatch_Cat_Void. simpl.
  destruct (p c); [exact IH|apply fullmatch_Cat_Void].
Qed.

(** [[class]+] matches the non-empty strings over the class. *)
Lemma fullmatch_plus_Cls p s :
  fullmatch (plus (Cls p)) s = truthy s && all_chars p s.
Proof.
  destruct s as [|c s]; [done|].
  change (fullmatch (plus (Cls p)) (String c s))
    with (fullmatch (Cat (if p c then Eps else Void) (Star (Cls p))) s).
  simpl. destruct (p c); [apply fullmatch_Eps_Star_Cls|].
  apply fullmatch_Cat_Void.
Qed.

Lemma chop_newline_all p s s' :
  chop_newline s = Some s' → p newline = true →
  all_chars p s' = true → truthy s = true ∧ all_chars p s = true.
Proof.
  intros Hchop Hnl. revert s' Hchop.
  induction s as [|c s IH]; intros s' Hchop Hall; [done|].
  split; [done|]. destruct s as [|c' s].
  - simpl in Hchop. destruct (is_char newline c) eqn:Hc; [|done].
    apply N.eqb_eq in Hc. unfold code in Hc.
    assert (c = newline) as ->.
    { rewrite <-(ascii_N_embedding c), <-Hc. apply ascii_N_embedding. }
    simpl. by rewrite Hnl.
  - change (chop_newline (String c (String c' s)))
      with (String c <$> chop_newline (String c' s)) in Hchop.
    destruct (chop_newline (String c' s)) as [t|] eqn:Ht; [|done].
    injection Hchop as <-. simpl in Hall.
    apply andb_true_iff in Hall as [Hc Hall].
    destruct (IH t eq_refl Hall) as [_ IH'].
    change (all_chars p (String c (String c' s)))
      with (p c && all_chars p (String c' s)).
    by rewrite Hc, IH'.
Qed.

(** The name pattern accepts the non-empty strings of word characters,
    whitespace, dots and hyphens. *)
Lemma name_pattern_match s :
  re_match_anchored name_pattern s = truthy s && all_chars name_class s.
Proof.
  unfold re_match_anchored, name_pattern. rewrite fullmatch_plus_Cls.
  destruct (truthy s && all_chars name_class s) eqn:Hs; [done|].
  destruct (chop_newline s) as [s'|] eqn:Hchop; [|done].
  rewrite fullmatch_plus_Cls. simpl.
  destruct (truthy s' && all_chars name_class s') eqn:Hs'; [|done].
  apply andb_true_iff in Hs' as [_ Hall].
  destruct (chop_newline_all name_class s s' Hchop eq_refl Hall) as [H1 H2].
  by rewrite H1, H2 in Hs.
Qed.

End regex.

(** ** InputValidator *)

(** [validate_phone], with the characters it removes and the characters it
    takes for digits given by the classes of the pattern and of
    [str.isdigit]. *)
Lemma validate_phone_spec (s : string) :
  chars (re_sub_class phone_separator "" s) = Spec.remaining s
  ∧ (validate_phone s = (false, "Phone must be 10-15 digits.")
     ↔ ¬ (Forall (λ c, isdigit_char c) (Spec.remaining s)
          ∧ (10 ≤ length (Spec.remaining s) ≤ 15)%nat))
  ∧ (validate_phone s = (true, "")
     ↔ Forall (λ c, isdigit_char c) (Spec.remaining s)
       ∧ (10 ≤ length (Spec.remaining s) ≤ 15)%nat)
  ∧ validate_phone "98-765 (43210)" = (true, "").
Proof.
  assert (Hsub := re_sub_class_empty phone_separator s).
  fold (Spec.remaining s) in Hsub.
  assert (Hacc : isdigit (re_sub_class phone_separator "" s) = true
                 ∧ ((10 <=? len (re_sub_class phone_separator "" s))
                    && (len (re_sub_class phone_separator "" s) <=? 15)) = true
                 ↔ Forall (λ c, isdigit_char c) (Spec.remaining s)
                   ∧ (10 ≤ length (Spec.remaining s) ≤ 15)%nat).
  { rewrite isdigit_Forall, andb_true_iff, len_length, Hsub.
    rewrite Z.leb_le, Z.leb_le. split.
    - intros [[_ ?] [? ?]]. split; [done|lia].
    - intros [? [? ?]]. split; [split; [|done]|lia].
      intros E. rewrite E in *. simpl in *. lia. }
  split; [done|]. rewrite <-Hacc.
  split; [|split; [|reflexivity]].
  all: unfold validate_phone; cbv zeta.
  all: destruct (isdigit _), (_ && _); simpl; split; try done; try tauto.
  all: intros; intuition discriminate.
Qed.

Lemma both_spec (f : bool → bool) : Requests.both f = true → ∀ b, f b = true.
Proof.
  unfold Requests.both. intros [H1 H2]%andb_true_iff b. by destruct b.
Qed.

(** A property checked on each of the 256 characters holds of every
    character. *)
Lemma every_char_spec (p : ascii → bool) :
  Requests.every_char p = true → ∀ c, p c = true.
Proof.
  intros H [b0 b1 b2 b3 b4 b5 b6 b7]. unfold Requests.every_char in H.
  apply both_spec with (b := b0) in H. apply both_spec with (b := b1) in H.
  apply both_spec with (b := b2) in H. apply both_spec with (b := b3) in H.
  apply both_spec with (b := b4) in H. apply both_spec with (b := b5) in H.
  apply both_spec with (b := b6) in H. apply both_spec with (b := b7) in H.
  exact H.
Qed.

Lemma phone_separator_codes c :
  phone_separator c = bool_decide (code c ∈ Spec.stripped_codes).
Proof.
  apply eqb_prop. revert c. apply every_char_spec. by vm_compute.
Qed.

Lemma isdigit_char_codes c :
  isdigit_char c = bool_decide (code c ∈ Spec.digit_codes).
Proof.
  apply eqb_prop. revert c. apply every_char_spec. by vm_compute.
Qed.

Lemma digits_by_code (l : list ascii) :
  Forall (λ c, isdigit_char c) l ↔ Forall (λ c, code c ∈ Spec.digit_codes) l.
Proof.
  apply Forall_iff. intros c. rewrite isdigit_char_codes.
  apply bool_decide_spec.
Qed.

Lemma remaining_kept s : Spec.remaining s = Spec.kept s.
Proof.
  unfold Spec.remaining, Spec.kept. apply list_filter_iff. intros c.
  rewrite phone_separator_codes. case_bool_decide; simpl; tauto.
Qed.

(** C5.  [validate_phone s] first removes from [s] every whitespace
    character (the space, and also the tab, the newline and the other
    characters of [\s]), every hyphen and every parenthesis.  It then answers
    with the error "Phone must be 10-15 digits." exactly when the characters
    that remain are not all digits in the sense of [str.isdigit] (0-9, and
    also the superscripts one, two and three) or their number is outside
    10..15, and accepts otherwise.  The number "98-765 (43210)" is
    accepted. *)
Theorem validate_phone_by_codes (s : string) :
  chars (re_sub_class phone_separator "" s) = Spec.kept s
  ∧ (validate_phone s = (false, "Phone must be 10-15 digits.")
     ↔ ¬ (Forall (λ c, code c ∈ Spec.digit_codes) (Spec.kept s)
          ∧ (10 ≤ length (Spec.kept s) ≤ 15)%nat))
  ∧ (validate_phone s = (true, "")
     ↔ Forall (λ c, code c ∈ Spec.digit_codes) (Spec.kept s)
       ∧ (10 ≤ length (Spec.kept s) ≤ 15)%nat)
  ∧ validate_phone "98-765 (43210)" = (true, "").
Proof.
  destruct (validate_phone_spec s) as (Hsub & Hfail & Hok & Hex).
  rewrite remaining_kept in Hsub, Hfail, Hok.
  rewrite digits_by_code in Hfail, Hok.
  split; [exact Hsub|]. split; [exact Hfail|]. split; [exact Hok|exact Hex].
Qed.

(** Ten superscript twos are accepted as a phone number, and so is a number
    with a tab between its digits: under the reading with 0-9 as the digits
    and the space, the hyphen and the parentheses as what is stripped,
    neither would be. *)
Lemma validate_phone_superscripts_and_tab :
  validate_phone Sample.superscript_twos = (true, "")
  ∧ Spec.accepts_decimal_phone Sample.superscript_twos = false
  ∧ validate_phone Sample.tabbed_phone = (true, "")
  ∧ Spec.accepts_decimal_phone Sample.tabbed_phone = false.
Proof. by vm_compute. Qed.

(** The validators on the examples of the specification and on strings
    that end in a newline. *)
Example validate_name_ann : validate_name "Ann Lee" = (true, "").
Proof. vm_compute. reflexivity. Qed.

Example validate_name_blank :
  validate_name "   " = (false, "Name cannot be empty.").
Proof. vm_compute. reflexivity. Qed.

Example validate_name_short :
  validate_name " A " = (false, "Name must be at least 2 characters.").
Proof. vm_compute. reflexivity. Qed.

Example validate_name_bang :
  validate_name "Ann!" = (false, "Name contains invalid characters.").
Proof. vm_compute. reflexivity. Qed.

Example validate_email_ann : validate_email "ann@x.com" = (true, "").
Proof. vm_compute. reflexivity. Qed.

Example validate_email_short_tld :
  validate_email "ann@x.c" = (false, "Invalid email format.").
Proof. vm_compute. reflexivity. Qed.

Example validate_email_final_newline :
  validate_email (String.append "ann@x.com" (String newline EmptyString))
  = (true, "").
Proof. vm_compute. reflexivity. Qed.

Example validate_pincode_1234 :
  validate_pincode "1234" = (false, "Pincode must be 5 or 6 digits.").
Proof. vm_compute. reflexivity. Qed.

Example validate_pincode_560001 : validate_pincode "560001" = (true, "").
Proof. vm_compute. reflexivity. Qed.

(** ** StudentManagementApp.get_form *)

Import StudentManagementApp.

(** C4.  [get_form] runs the field checks in the order name, email, phone,
    pincode.  The first check that fails ends it: its message is the one
    shown, its entry is the one focused, no record is returned and no later
    check takes part.  When none fails the record of the ten fields is
    returned and nothing is shown. *)
Theorem get_form_first_failure (self : app) :
  get_form self =
    match Spec.first_failure (Spec.checks self) with
    | Some (w, msg) => ([showerror "Validation" msg; focus w], None)
    | None => ([], Some (Spec.form_fields self))
    end.
Proof.
  unfold get_form, Spec.checks, Spec.form_fields. cbv zeta.
  cbn [Spec.first_failure].
  destruct (validate_name _) as [[] ?]; [|reflexivity].
  destruct (validate_email _) as [[] ?]; [|reflexivity].
  destruct (validate_phone _) as [[] ?]; [|reflexivity].
  destruct (validate_pincode _) as [[] ?]; reflexivity.
Qed.

(** ** The table *)

Import DatabaseManager.

Section table.
Implicit Types (t : gmap Z row) (d self : database) (k sid : Z) (r : row).

Lemma foldr_max_ge (l : list Z) k : k ∈ l → k ≤ foldr Z.max 0 l.
Proof.
  induction l as [|x l IH]; intros Hin; [by apply not_elem_of_nil in Hin|].
  apply elem_of_cons in Hin as [->|Hin]; simpl; [lia|].
  specialize (IH Hin). lia.
Qed.

Lemma max_rowid_ge t k r : t !! k = Some r → k ≤ max_rowid t.
Proof.
  intros Hk. apply foldr_max_ge, list_elem_of_fmap.
  exists (k, r). by rewrite elem_of_map_to_list.
Qed.

Lemma next_rowid_gt d k r : students d !! k = Some r → k < next_rowid d.
Proof. intros Hk%max_rowid_ge. unfold next_rowid. lia. Qed.

Lemma next_rowid_fresh d : students d !! next_rowid d = None.
Proof.
  destruct (students d !! next_rowid d) eqn:Hk; [|done].
  apply next_rowid_gt in Hk. lia.
Qed.

Lemma taken_iff (col : row → string) (me : option Z) v t :
  taken col me v t ↔ ∃ k r, t !! k = Some r ∧ Some k ≠ me ∧ col r = v.
Proof.
  unfold taken, map_Exists.
  split; intros (k & r & H); exists k, r; tauto.
Qed.

Lemma taken_insert_iff (col : row → string) v t :
  taken col None v t ↔ ∃ k r, t !! k = Some r ∧ col r = v.
Proof.
  rewrite taken_iff.
  split; intros (k & r & H); exists k, r; [tauto|].
  split; [tauto|]. split; [done|tauto].
Qed.

(** What [insert_student] answers, by the state of the two indices. *)
Lemma insert_student_cases (data : insert_dict) self :
  insert_student data self =
    if decide (taken student_phone None (phone data) (students self))
    then (false, "Phone already exists.", self)
    else if decide (taken student_email None (email data) (students self))
    then (false, "Email already exists.", self)
    else (true, "",
          mk_database
            (<[next_rowid self := insert_values data]> (students self))
            (next_rowid self)).
Proof.
  unfold insert_student, Sqlite.insert, unique_indices.
  change (student_phone (insert_values data)) with (phone data).
  change (student_email (insert_values data)) with (email data).
  repeat case_decide; reflexivity.
Qed.

(** What [update_student] answers. *)
Lemma update_student_cases sid (data : update_dict) self :
  update_student sid data self =
    match students self !! sid with
    | None => (false, "No row updated (ID may not exist).", self)
    | Some r =>
        if decide (taken student_phone (Some sid) (phone data) (students self))
        then (false, "Phone already exists.", self)
        else if decide (taken student_email (Some sid) (email data)
                          (students self))
        then (false, "Email already exists.", self)
        else (true, "",
              mk_database (<[sid := update_set data r]> (students self))
                (sqlite_sequence self))
    end.
Proof.
  unfold update_student, Sqlite.update, unique_indices.
  destruct (students self !! sid) as [r|]; [|reflexivity].
  change (student_phone (update_set data r)) with (phone data).
  change (student_email (update_set data r)) with (email data).
  repeat case_decide; reflexivity.
Qed.

Lemma delete_student_absent sid self :
  students self !! sid = None → delete_student sid self = (true, "", self).
Proof.
  intros Hk. unfold delete_student, delete_from.
  rewrite delete_id by done. by destruct self.
Qed.

End table.

(** ** SELECT ... ORDER BY student_id DESC *)

Section select.
Import Spec.
Implicit Types (l : list (Z * row)) (w : row → bool) (d : database).

#[local] Instance id_desc_total : Total id_desc.
Proof. intros x y. unfold id_desc. lia. Qed.

#[local] Instance id_desc_trans : Transitive id_desc.
Proof. intros x y z. unfold id_desc. lia. Qed.

Lemma order_by_id_desc_perm l : order_by_id_desc l ≡ₚ l.
Proof. apply merge_sort_Permutation. Qed.

Lemma order_by_id_desc_sorted l : StronglySorted id_desc (order_by_id_desc l).
Proof. apply StronglySorted_merge_sort; apply _. Qed.

Lemma filter_all w l :
  (∀ kr, kr ∈ l → w kr.2 = true) → filter (λ kr, w kr.2) l = l.
Proof.
  induction l as [|x l IH]; intros Hall; [done|].
  rewrite filter_cons_True.
  - f_equal. apply IH. intros kr Hkr. apply Hall. by right.
  - rewrite (Hall x); [done|by left].
Qed.

Lemma get_all_students_ordered_rows d :
  get_all_students d = select_columns <$> ordered_rows d.
Proof.
  unfold get_all_students, select, ordered_rows.
  by rewrite (filter_all (λ _, true)).
Qed.

(** A WHERE clause every row satisfies selects what no WHERE clause
    selects. *)
Lemma select_all w d :
  (∀ k r, students d !! k = Some r → w r = true) →
  select w d = get_all_students d.
Proof.
  intros Hall. unfold get_all_students, select.
  rewrite (filter_all (λ _, true)) by done.
  rewrite (filter_all w); [done|].
  intros [k r] Hkr. apply Hall with k. by apply elem_of_map_to_list.
Qed.

Lemma ordered_rows_lookup d k r :
  (k, r) ∈ ordered_rows d ↔ students d !! k = Some r.
Proof.
  unfold ordered_rows.
  by rewrite order_by_id_desc_perm, elem_of_map_to_list.
Qed.

(** Two listings of the same table in descending order of id are the
    same list: an id is held by one row only. *)
Lemma ordered_rows_unique d l :
  StronglySorted id_desc l → l ≡ₚ map_to_list (students d) →
  l = ordered_rows d.
Proof.
  intros Hsorted Hperm.
  apply (StronglySorted_unique_strong id_desc);
    [|done|apply order_by_id_desc_sorted
     |by unfold ordered_rows; rewrite order_by_id_desc_perm].
  intros [k1 r1] [k2 r2] H1 H2 Hle1 Hle2.
  rewrite Hperm in H1. apply elem_of_map_to_list in H1.
  apply ordered_rows_lookup in H2.
  unfold id_desc in *; simpl in *.
  assert (k1 = k2) as -> by lia. congruence.
Qed.

(** A row stored under an id above all the ids of the table comes first. *)
Lemma ordered_rows_insert_above (t : gmap Z row) k r n n' :
  (∀ k' r', t !! k' = Some r' → k' < k) →
  ordered_rows (mk_database (<[k := r]> t) n)
  = (k, r) :: ordered_rows (mk_database t n').
Proof.
  intros Habove. symmetry. apply ordered_rows_unique.
  - constructor; [apply order_by_id_desc_sorted|].
    apply Forall_forall. intros [k' r'] Hin.
    apply ordered_rows_lookup in Hin. simpl in Hin.
    apply Habove in Hin. unfold id_desc. simpl. lia.
  - simpl. rewrite map_to_list_insert.
    + constructor. apply order_by_id_desc_perm.
    + destruct (t !! k) eqn:Hk; [|done]. apply Habove in Hk. lia.
Qed.

Lemma ordered_rows_descending d : descending (ordered_rows d).
Proof.
  assert (Hnd : NoDup (ordered_rows d).*1).
  { unfold ordered_rows. rewrite order_by_id_desc_perm.
    apply NoDup_fst_map_to_list. }
  assert (Hs := order_by_id_desc_sorted (map_to_list (students d))).
  fold (ordered_rows d) in Hs. unfold descending.
  induction Hs as [|x l _ IH Hx]; constructor.
  - apply IH. by apply NoDup_cons in Hnd as [_ ?].
  - apply NoDup_cons in Hnd as [Hx' _].
    rewrite Forall_forall in Hx |- *. intros y Hy.
    specialize (Hx y Hy). unfold id_desc in Hx.
    assert (y.1 ≠ x.1); [|lia].
    intros E. apply Hx'. rewrite <-E. apply list_elem_of_fmap. by exists y.
Qed.

End select.

(** ** DatabaseManager *)

Import Sample.

Lemma sample_with_ann :
  insert_student ann empty_database = (true, "", with_ann).
Proof. vm_compute. reflexivity. Qed.

Lemma sample_with_ann_bob :
  insert_student bob with_ann = (true, "", with_ann_bob).
Proof. vm_compute. reflexivity. Qed.

(** C1.  [delete_student] answers success for an id the table does not hold:
    with Ann stored under id 1, deleting id 7 returns [(True, '')] and leaves
    the table as it was, where [update_student] on the same id reports that
    no row was updated. *)
Theorem delete_student_absent_id_succeeds :
  students with_ann !! 7 = None
  ∧ delete_student 7 with_ann = (true, "", with_ann)
  ∧ update_student 7 (mk_update_dict bob_fields "2024-11-03 01:50:00")
      with_ann
    = (false, "No row updated (ID may not exist).", with_ann).
Proof. vm_compute. done. Qed.

(** C2.  A successful [insert_student] returns the pair [(True, '')].  The
    id the store assigned, one more than the largest id it ever held, is not
    part of what is returned: it is the first column of the first row that
    [get_all_students] returns afterwards. *)
Theorem insert_student_success (data : insert_dict) (self self' : database)
    (msg : string) :
  insert_student data self = (true, msg, self') →
  msg = ""
  ∧ students self !! next_rowid self = None
  ∧ self' = mk_database
              (<[next_rowid self := insert_values data]> (students self))
              (next_rowid self)
  ∧ get_all_students self'
    = select_columns (next_rowid self, insert_values data)
        :: get_all_students self.
Proof.
  rewrite insert_student_cases. repeat case_decide; intros [= <- <-].
  split; [done|]. split; [apply next_rowid_fresh|]. split; [done|].
  rewrite !get_all_students_ordered_rows.
  rewrite (ordered_rows_insert_above _ _ _ _ (sqlite_sequence self)).
  - by destruct self.
  - intros k r. apply next_rowid_gt.
Qed.

Lemma insert_student_success_witness :
  insert_student bob with_ann = (true, "", with_ann_bob)
  ∧ get_all_students with_ann_bob
    = select_columns (2, insert_values bob) :: get_all_students with_ann.
Proof.
  assert (H : insert_student bob with_ann = (true, "", with_ann_bob))
    by (vm_compute; reflexivity).
  split; [exact H|].
  exact (proj2 (proj2 (proj2 (insert_student_success bob with_ann _ _ H)))).
Defined.

(** Two successful inserts return the same value, [(True, '')], while the
    store assigns the ids 1 and 2: what [insert_student] returns is not the
    id. *)
Lemma insert_student_returns_no_id :
  insert_student ann empty_database = (true, "", with_ann)
  ∧ insert_student bob with_ann = (true, "", with_ann_bob)
  ∧ dom (students with_ann) = {[ 1 ]}
  ∧ dom (students with_ann_bob) = {[ 1; 2 ]}.
Proof. vm_compute. done. Qed.

(** C3.  An insert whose phone is already in the table fails with "Phone
    already exists.", whatever its email; an insert whose email is already
    in the table and whose phone is not fails with "Email already exists.".
    Either way the table is left as it was and the message names the
    colliding field. *)
Theorem insert_student_duplicate (data : insert_dict) (self : database)
    (k : Z) (r : row) :
  students self !! k = Some r →
  (student_phone r = phone data →
   insert_student data self = (false, "Phone already exists.", self))
  ∧ (student_email r = email data →
     (∀ k' r', students self !! k' = Some r' →
               student_phone r' ≠ phone data) →
     insert_student data self = (false, "Email already exists.", self)).
Proof.
  intros Hk. rewrite insert_student_cases. split.
  - intros Hphone. rewrite decide_True; [done|].
    apply taken_insert_iff. by exists k, r.
  - intros Hemail Hfree. rewrite decide_False.
    + rewrite decide_True; [done|]. apply taken_insert_iff. by exists k, r.
    + intros (k' & r' & Hk' & Heq)%taken_insert_iff. by apply (Hfree k' r').
Qed.

Lemma insert_student_duplicate_witness :
  students with_ann !! 1 = Some (insert_values ann)
  ∧ insert_student (mk_insert_dict bob_fields "" "") with_ann_bob
    = (false, "Phone already exists.", with_ann_bob)
  ∧ insert_student
      (mk_insert_dict
         (mk_fields "Ann Roy" "ann@x.com" "5550001111" "" "" "" "" "" "" "")
         "" "")
      with_ann
    = (false, "Email already exists.", with_ann).
Proof.
  split; [reflexivity|]. split.
  - apply (insert_student_duplicate _ with_ann_bob 2 (insert_values bob));
      reflexivity.
  - apply (insert_student_duplicate _ with_ann 1 (insert_values ann));
      [reflexivity..|].
    intros k' r' Hk'. unfold with_ann in Hk'. cbn [students] in Hk'.
    apply lookup_singleton_Some in Hk' as [_ <-].
    vm_compute. discriminate.
Defined.

(** A second record with Ann's email and Ann's phone is answered with the
    phone error, not the email one. *)
Lemma insert_student_same_email_and_phone :
  students with_ann !! 1 = Some (insert_values ann)
  ∧ student_email (insert_values ann) = email ann
  ∧ insert_student ann with_ann = (false, "Phone already exists.", with_ann).
Proof. vm_compute. done. Qed.

(** C6.  A successful [update_student] replaces the ten fields of the row
    under the given id by the supplied ones and sets its [last_modified] to
    the supplied one; the row stays under its id with its [date_added], and
    the rows under other ids are as before. *)
Theorem update_student_success (sid : Z) (data : update_dict)
    (self self' : database) (msg : string) :
  update_student sid data self = (true, msg, self') →
  ∃ r, students self !! sid = Some r
       ∧ students self' !! sid
         = Some (mk_row (name data) (email data) (phone data) (college data)
                   (department data) (year data) (address data) (city data)
                   (state data) (pincode data)
                   (date_added r) (update_last_modified data))
       ∧ (∀ k, k ≠ sid → students self' !! k = students self !! k).
Proof.
  rewrite update_student_cases.
  destruct (students self !! sid) as [r|] eqn:Hsid; [|done].
  repeat case_decide; intros [= <- <-]. exists r. simpl.
  split; [done|]. split; [by rewrite lookup_insert_eq|].
  intros k Hk. by rewrite lookup_insert_ne.
Qed.

Lemma update_student_success_witness :
  update_student 1 (mk_update_dict bob_fields "2024-11-03 02:00:00") with_ann
  = (true, "",
     mk_database
       {[ 1 := mk_row "Bob Ray" "bob@x.com" "1234567890" "City College"
                 "Electronics" "2nd Year" "2 Main Road" "Mysuru" "Karnataka"
                 "570001" "2024-11-03 01:30:00" "2024-11-03 02:00:00" ]} 1)
  ∧ ∃ r, students with_ann !! 1 = Some r
       ∧ date_added r = "2024-11-03 01:30:00".
Proof.
  split; [vm_compute; reflexivity|].
  destruct (update_student_success 1
              (mk_update_dict bob_fields "2024-11-03 02:00:00") with_ann
              (update_student 1
                 (mk_update_dict bob_fields "2024-11-03 02:00:00") with_ann).2
              "")
    as (r & Hr & _); [vm_compute; reflexivity|].
  exists r. split; [exact Hr|].
  vm_compute in Hr. by injection Hr as <-.
Defined.

(** What [get_all_students] returns after [delete_student] has no row whose
    first column is the deleted id. *)
Lemma delete_student_not_listed (sid : Z) (self : database)
    (cols : list value) :
  cols ∈ get_all_students (delete_student sid self).2 →
  head cols ≠ Some (Int sid).
Proof.
  rewrite get_all_students_ordered_rows.
  intros ([k r] & -> & Hin)%list_elem_of_fmap.
  apply ordered_rows_lookup in Hin. simpl in Hin.
  intros [= ->]. by rewrite lookup_delete_eq in Hin.
Qed.

(** C8.  [get_all_students] returns the rows of the table, each once, by id
    descending, and each as the thirteen values id, name, email, phone,
    college, department, year, address, city, state, pincode, date_added,
    last_modified in that order. *)
Theorem get_all_students_spec (self : database) :
  ∃ l : list (Z * row),
    l ≡ₚ map_to_list (students self)
    ∧ Spec.descending l
    ∧ get_all_students self
      = (λ kr,
          [ Int kr.1; Text (student_name kr.2); Text (student_email kr.2);
            Text (student_phone kr.2); Text (student_college kr.2);
            Text (student_department kr.2); Text (student_year kr.2);
            Text (student_address kr.2); Text (student_city kr.2);
            Text (student_state kr.2); Text (student_pincode kr.2);
            Text (date_added kr.2); Text (last_modified kr.2) ]) <$> l.
Proof.
  exists (Spec.ordered_rows self). split; [apply order_by_id_desc_perm|].
  split; [apply ordered_rows_descending|].
  apply get_all_students_ordered_rows.
Qed.

(** ** LIKE *)

Lemma like_from_percent (txt : string) : like_from "%" txt = true.
Proof. induction txt as [|c txt IH]; [done|exact IH]. Qed.

Lemma like_from_percent_cons (pat txt : string) :
  like_from pat txt = true → like_from (String "%" pat) txt = true.
Proof. intros H. destruct txt; simpl; by rewrite H. Qed.

Example like_folds_case : like "XAY" "%a%" = true.
Proof. reflexivity. Qed.

Example like_underscore : like "a" "%_%" = true ∧ like "" "%_%" = false.
Proof. split; reflexivity. Qed.

(** Every text is LIKE '%%' and LIKE '%%%'. *)
Lemma like_percent_2 (txt : string) : like txt "%%" = true.
Proof. apply like_from_percent_cons, like_from_percent. Qed.

Lemma like_percent_3 (txt : string) : like txt "%%%" = true.
Proof. do 2 apply like_from_percent_cons. apply like_from_percent. Qed.

(** C9.  A search for the empty term returns what [get_all_students]
    returns, in the same order: the statement [search_students] of the
    database manager issues selects every row, and the search handler of the
    application, whose term is the stripped text of the search entry, shows
    the full listing when that is empty. *)
Theorem search_students_empty_term (self : database) (a : app) :
  DatabaseManager.search_students "" self = get_all_students self
  ∧ (strip (search_text (entries a)) = "" →
     tree (StudentManagementApp.search_students a) = get_all_students (db a)).
Proof.
  split.
  - unfold DatabaseManager.search_students. cbv zeta.
    change ("%" +:+ "" +:+ "%") with "%%".
    apply select_all. intros k r _. by rewrite like_percent_2.
  - intros Hterm. unfold StudentManagementApp.search_students. cbv zeta.
    by rewrite Hterm.
Qed.

Lemma search_students_empty_term_witness :
  strip "  " = ""
  ∧ tree (StudentManagementApp.search_students
            (mk_app with_ann_bob
               (mk_form "" "" "" "" "" "" "" "" "" "" "  ") []))
    = get_all_students with_ann_bob.
Proof.
  split; [reflexivity|].
  apply (search_students_empty_term with_ann_bob
           (mk_app with_ann_bob
              (mk_form "" "" "" "" "" "" "" "" "" "" "  ") [])).
  reflexivity.
Defined.

(** C10.  The term of a search goes into the LIKE pattern as it is.  For the
    term "%", the pattern is '%%%' and every row is returned; with Ann
    stored, her row is returned although "%" occurs in none of her name,
    email, phone, college, department and city. *)
Theorem search_students_percent_term :
  (∀ self, DatabaseManager.search_students "%" self = get_all_students self)
  ∧ ∃ term self k r,
      contains "%" term = true
      ∧ students self !! k = Some r
      ∧ select_columns (k, r) ∈ DatabaseManager.search_students term self
      ∧ contains term (student_name r) = false
      ∧ contains term (student_email r) = false
      ∧ contains term (student_phone r) = false
      ∧ contains term (student_college r) = false
      ∧ contains term (student_department r) = false
      ∧ contains term (student_city r) = false.
Proof.
  split.
  - intros self. unfold DatabaseManager.search_students. cbv zeta.
    change ("%" +:+ "%" +:+ "%") with "%%%".
    apply select_all. intros k r _. by rewrite like_percent_3.
  - exists "%", with_ann, 1, (insert_values ann).
    split; [reflexivity|]. split; [reflexivity|].
    split; [|by vm_compute].
    vm_compute. left.
Qed.

(** ** Timestamps *)

Section timestamps.
Implicit Types (self : app) (now : string).

Lemma add_student_db now self :
  db (add_student now self).2 = db self
  ∨ ∃ data,
      students (db (add_student now self).2)
      = <[next_rowid (db self) := insert_values (mk_insert_dict data now now)]>
          (students (db self)).
Proof.
  unfold add_student. destruct (get_form self) as [shown [data|]]; [|by left].
  rewrite insert_student_cases.
  repeat case_decide; simpl; [by left..|right; by exists data].
Qed.

Lemma update_student_db sid now self :
  db (StudentManagementApp.update_student (Some sid) now self).2 = db self
  ∨ ∃ data r,
      students (db self) !! sid = Some r
      ∧ students
          (db (StudentManagementApp.update_student (Some sid) now self).2)
        = <[sid := update_set (mk_update_dict data now) r]>
            (students (db self)).
Proof.
  unfold StudentManagementApp.update_student.
  destruct (get_form self) as [shown [data|]]; [|by left].
  rewrite update_student_cases.
  destruct (students (db self) !! sid) as [r|] eqn:Hsid; [|by left].
  repeat case_decide; simpl; [by left..|right; by exists data, r].
Qed.

Lemma delete_student_db sel (askyesno : bool) self :
  db (StudentManagementApp.delete_student sel askyesno self).2 = db self
  ∨ ∃ sid,
      students (db (StudentManagementApp.delete_student sel askyesno self).2)
      = delete sid (students (db self)).
Proof.
  unfold StudentManagementApp.delete_student.
  destruct sel as [sid|]; [|by left].
  destruct askyesno; [|by left]. right. by exists sid.
Qed.

End timestamps.

(** C7.  A record [add_student] creates has [date_added] and
    [last_modified] both equal to the clock reading taken for it, and
    [add_student] and [delete_student] keep every stored record's
    [last_modified] at or after its [date_added].  [update_student] keeps it
    so when the clock reading it stamps is not before the [date_added] of
    the record it updates. *)
Theorem handlers_keep_timestamps_ordered (self : app) (now : string)
    (sel : option Z) (askyesno : bool) :
  Spec.timestamps_ok (db self) →
  (Spec.timestamps_ok (db (add_student now self).2)
   ∧ ∀ k r, students (db self) !! k = None →
            students (db (add_student now self).2) !! k = Some r →
            date_added r = now ∧ last_modified r = now)
  ∧ Spec.timestamps_ok
      (db (StudentManagementApp.delete_student sel askyesno self).2)
  ∧ ((∀ sid r, sel = Some sid → students (db self) !! sid = Some r →
               (date_added r ≤ now)%string) →
     Spec.timestamps_ok
       (db (StudentManagementApp.update_student sel now self).2)).
Proof.
  unfold Spec.timestamps_ok. intros Hok. split; [|split].
  - destruct (add_student_db now self) as [->|[data ->]].
    + split; [done|]. intros k r ->. done.
    + split.
      * apply map_Forall_insert_2; [reflexivity|done].
      * intros k r Hnone [[_ <-]|[_ Hk]]%lookup_insert_Some; [done|congruence].
  - destruct (delete_student_db sel askyesno self) as [->|[sid ->]]; [done|].
    by apply map_Forall_delete.
  - intros Hclock. destruct sel as [sid|]; [|done].
    destruct (update_student_db sid now self) as [->|(data & r & Hsid & ->)];
      [done|].
    apply map_Forall_insert_2; [|done]. simpl. by apply (Hclock sid).
Qed.

Lemma handlers_keep_timestamps_ordered_witness :
  Spec.timestamps_ok (db ann_typed)
  ∧ Spec.timestamps_ok (db ann_updated_later)
  ∧ students (db ann_updated_later) !! 1
    = Some (mk_row "Ann Lee" "ann@x.com" "9876543210" "City College"
              "Computer Science" "1st Year" "1 Main Road" "Bengaluru"
              "Karnataka" "560001" "2024-11-03 01:30:00"
              "2024-11-03 01:45:00").
Proof.
  assert (Hok : Spec.timestamps_ok (db ann_typed)).
  { apply map_Forall_singleton. vm_compute. exact I. }
  split; [exact Hok|]. split; [|vm_compute; reflexivity].
  apply (handlers_keep_timestamps_ordered ann_typed "2024-11-03 01:45:00"
           (Some 1) true Hok).
  intros sid r [= <-] Hr. vm_compute in Hr. injection Hr as <-.
  vm_compute. exact I.
Defined.

(** With Ann added at 01:30:00, an update stamped with the clock reading
    01:10:00 stores a [last_modified] that is before her [date_added]. *)
Lemma update_student_earlier_reading :
  Spec.timestamps_ok (db ann_typed)
  ∧ ∃ r, students (db ann_updated_earlier) !! 1 = Some r
         ∧ date_added r = "2024-11-03 01:30:00"
         ∧ last_modified r = "2024-11-03 01:10:00"
         ∧ ¬ (date_added r ≤ last_modified r)%string
         ∧ ¬ Spec.timestamps_ok (db ann_updated_earlier).
Proof.
  split; [apply map_Forall_singleton; vm_compute; exact I|].
  eexists. split; [vm_compute; reflexivity|].
  split; [reflexivity|]. split; [reflexivity|].
  split; [vm_compute; tauto|].
  intros Hok. specialize (Hok 1 _ ltac:(vm_compute; reflexivity)).
  vm_compute in Hok. exact Hok.
Qed.

(** * Further properties *)

(** ** Outcomes of the calls of the database manager *)

Section outcomes.
Import Requests.
Implicit Types (d : database) (q : request) (k sid : Z) (r : row).


(** X3.  For an id that fits a signed integer of 64 bits, [update_student]
    answers "No row updated (ID may not exist)." exactly when no row has the
    id, and succeeds exactly when a row has the id and no row under another
    id has the supplied phone or email; the phone and email of the updated
    row itself do not count. *)
Theorem update_student_outcome sid (data : update_dict) d :
  int64 sid →
  ((update_student sid data d).1
   = (false, "No row updated (ID may not exist).")
   ↔ students d !! sid = None)
  ∧ ((update_student sid data d).1.1 = true
     ↔ is_Some (students d !! sid)
       ∧ ∀ k r, k ≠ sid → students d !! k = Some r →
                student_phone r ≠ phone data
                ∧ student_email r ≠ email data).
Proof.
  intros _. rewrite update_student_cases.
  destruct (students d !! sid) as [r0|] eqn:Hsid.
  - assert (Hother : ∀ col v,
      taken col (Some sid) v (students d)
      ↔ ∃ k r, k ≠ sid ∧ students d !! k = Some r ∧ col r = v).
    { intros col v. rewrite taken_iff.
      split; intros (k & r & H); exists k, r;
        (split; [|split]); try tauto; destruct H as (? & ? & ?);
        congruence. }
    repeat case_decide; simpl.
    + split; [done|]. split; [done|]. intros [_ Hfree].
      apply Hother in H as (k & r & Hne & Hk & Hr).
      by destruct (Hfree k r Hne Hk).
    + split; [done|]. split; [done|]. intros [_ Hfree].
      apply Hother in H0 as (k & r & Hne & Hk & Hr).
      by destruct (Hfree k r Hne Hk).
    + split; [done|]. split; [|done]. intros _. split; [by eexists|].
      intros k r Hne Hk. split; intros Hr.
      * apply H, Hother. by exists k, r.
      * apply H0, Hother. by exists k, r.
  - simpl. split; [done|]. split; [done|]. by intros [[? ?] _].
Qed.

End outcomes.

(** ** Invariants of the table *)

Section invariants.
Import Requests.
Implicit Types (d : database) (q : request) (k sid : Z) (r : row).
Implicit Types (col : row → string).

Lemma unique_insert col d k r n :
  students d !! k = None →
  ¬ taken col None (col r) (students d) →
  unique col d → unique col (mk_database (<[k := r]> (students d)) n).
Proof.
  intros Hk Hfree Huniq k1 k2 r1 r2. simpl.
  rewrite !lookup_insert_Some.
  intros [[<- <-]|[Hne1 H1]] [[<- <-]|[Hne2 H2]] Hcol; [done| | |by eauto].
  - exfalso. apply Hfree, taken_insert_iff. by exists k2, r2.
  - exfalso. apply Hfree, taken_insert_iff. by exists k1, r1.
Qed.

Lemma unique_update col d sid r n :
  ¬ taken col (Some sid) (col r) (students d) →
  unique col d → unique col (mk_database (<[sid := r]> (students d)) n).
Proof.
  intros Hfree Huniq k1 k2 r1 r2. simpl.
  rewrite !lookup_insert_Some.
  intros [[<- <-]|[Hne1 H1]] [[<- <-]|[Hne2 H2]] Hcol; [done| | |by eauto].
  - exfalso. apply Hfree, taken_iff. exists k2, r2.
    split; [done|]. split; [congruence|done].
  - exfalso. apply Hfree, taken_iff. exists k1, r1.
    split; [done|]. split; [congruence|done].
Qed.

Lemma unique_delete col d sid n :
  unique col d → unique col (mk_database (delete sid (students d)) n).
Proof.
  intros Huniq k1 k2 r1 r2. simpl. rewrite !lookup_delete_Some.
  intros [_ H1] [_ H2]. by eauto.
Qed.

Lemma perform_unique q d :
  unique student_email d ∧ unique student_phone d →
  unique student_email (perform q d).2 ∧ unique student_phone (perform q d).2.
Proof.
  intros [He Hp]. destruct q as [data|sid data|sid]; simpl.
  - rewrite insert_student_cases. repeat case_decide; simpl; [done..|].
    split; apply unique_insert; auto using next_rowid_fresh.
  - rewrite update_student_cases.
    destruct (students d !! sid) as [r|]; [|done].
    repeat case_decide; simpl; [done..|].
    split; apply unique_update; auto.
  - split; by apply unique_delete.
Qed.

(** X4.  Whatever calls are made, no two rows of the table come to hold the
    same email or the same phone. *)
Theorem requests_keep_email_and_phone_unique (qs : list request) d :
  unique student_email d ∧ unique student_phone d →
  unique student_email (run qs d) ∧ unique student_phone (run qs d).
Proof.
  revert d. induction qs as [|q qs IH]; intros d Hd; [done|].
  apply IH. by apply perform_unique.
Qed.

Lemma perform_keeps_free q d k :
  k ≤ sqlite_sequence d → students d !! k = None →
  k ≤ sqlite_sequence (perform q d).2 ∧ students (perform q d).2 !! k = None.
Proof.
  intros Hle Hk. destruct q as [data|sid data|sid]; simpl.
  - rewrite insert_student_cases. repeat case_decide; simpl; [done..|].
    assert (sqlite_sequence d < next_rowid d) by (unfold next_rowid; lia).
    split; [lia|]. rewrite lookup_insert_ne by lia. done.
  - rewrite update_student_cases.
    destruct (students d !! sid) as [r|] eqn:Hsid; [|done].
    repeat case_decide; simpl; [done..|].
    split; [done|]. rewrite lookup_insert_ne; [done|]. congruence.
  - split; [done|]. by apply lookup_delete_None; right.
Qed.

(** An id that is not above the counter of the table and that no row has
    is given to no row by any later calls. *)
Lemma free_id_stays_free (qs : list request) d k :
  k ≤ sqlite_sequence d → students d !! k = None →
  students (run qs d) !! k = None.
Proof.
  revert d. induction qs as [|q qs IH]; intros d Hle Hk; [done|].
  destruct (perform_keeps_free q d k Hle Hk). by apply IH.
Qed.

Lemma perform_bounds q d :
  (∀ k r, students d !! k = Some r → k ≤ sqlite_sequence d) →
  ∀ k r, students (perform q d).2 !! k = Some r →
         k ≤ sqlite_sequence (perform q d).2.
Proof.
  intros Hd. destruct q as [data|sid data|sid]; simpl.
  - rewrite insert_student_cases. repeat case_decide; simpl; [done..|].
    intros k r [[<- _]|[_ Hk]]%lookup_insert_Some; [done|].
    apply Hd in Hk. unfold next_rowid. lia.
  - rewrite update_student_cases.
    destruct (students d !! sid) as [r0|] eqn:Hsid; [|done].
    repeat case_decide; simpl; [done..|].
    intros k r [[<- _]|[_ Hk]]%lookup_insert_Some; by eauto.
  - intros k r [_ Hk]%lookup_delete_Some. by eauto.
Qed.

Lemma run_bounds (qs : list request) d :
  (∀ k r, students d !! k = Some r → k ≤ sqlite_sequence d) →
  ∀ k r, students (run qs d) !! k = Some r → k ≤ sqlite_sequence (run qs d).
Proof.
  revert d. induction qs as [|q qs IH]; intros d Hd; [done|].
  apply IH. by apply perform_bounds.
Qed.

(** X5.  Ids are not reused: starting from the empty database, once the row
    of an id has been deleted no later call gives that id to a row. *)
Theorem deleted_id_never_reused (before after : list request) k :
  is_Some (students (run before empty_database) !! k) →
  students (run (before ++ Delete k :: after) empty_database) !! k = None.
Proof.
  intros [r Hk]. unfold run at 1. rewrite foldl_app. simpl.
  fold (run before empty_database).
  set (d := run before empty_database) in *.
  apply (free_id_stays_free after); simpl.
  - by apply (run_bounds before empty_database) with r.
  - apply lookup_delete_eq.
Qed.

End invariants.

(** ** Listings *)

Section listings.
Import Requests Spec.
Implicit Types (d : database) (k sid : Z) (r : row) (l : list (Z * row)).

Lemma StronglySorted_filter {A} (R : relation A) (P : A → Prop)
    `{∀ x, Decision (P x)} (l : list A) :
  StronglySorted R l → StronglySorted R (filter P l).
Proof.
  induction 1 as [|x l _ IH Hx]; [constructor|].
  destruct (decide (P x)).
  - rewrite filter_cons_True by done. constructor; [done|].
    apply Forall_forall. intros y [_ Hy]%list_elem_of_filter.
    by apply (proj1 (Forall_forall _ _) Hx).
  - by rewrite filter_cons_False.
Qed.

Lemma same_key_same_row l k r1 r2 :
  NoDup l.*1 → (k, r1) ∈ l → (k, r2) ∈ l → r1 = r2.
Proof.
  induction l as [|[k' r'] l IH]; simpl; intros Hnd H1 H2;
    [by apply not_elem_of_nil in H1|].
  apply NoDup_cons in Hnd as [Hk' Hnd].
  assert (Hkey : ∀ r0, (k', r0) ∈ l → False).
  { intros r0 Hin. apply Hk', list_elem_of_fmap. by exists (k', r0). }
  apply elem_of_cons in H1 as [H1|H1]; apply elem_of_cons in H2 as [H2|H2].
  - congruence.
  - injection H1 as -> ->. by destruct (Hkey r2).
  - injection H2 as -> ->. by destruct (Hkey r1).
  - by apply IH.
Qed.

(** Two lists of rows with the same rows, both by id descending, are the
    same list when no id occurs twice. *)
Lemma sorted_by_id_unique l1 l2 :
  NoDup l1.*1 → StronglySorted id_desc l1 → StronglySorted id_desc l2 →
  l1 ≡ₚ l2 → l1 = l2.
Proof.
  intros Hnd H1 H2 Hperm.
  apply (StronglySorted_unique_strong id_desc); [|done..].
  intros [k1 r1] [k2 r2] Hin1 Hin2 Hle1 Hle2.
  unfold id_desc in *. simpl in *. assert (k1 = k2) as -> by lia.
  rewrite <-Hperm in Hin2. f_equal. by eapply same_key_same_row.
Qed.

Lemma order_filter l (P : Z * row → Prop) `{∀ x, Decision (P x)} :
  NoDup l.*1 →
  order_by_id_desc (filter P l) = filter P (order_by_id_desc l).
Proof.
  intros Hnd. apply sorted_by_id_unique.
  - rewrite order_by_id_desc_perm.
    eapply sublist_NoDup; [exact Hnd|]. apply fmap_sublist, sublist_filter.
  - apply order_by_id_desc_sorted.
  - apply StronglySorted_filter, order_by_id_desc_sorted.
  - by rewrite !order_by_id_desc_perm.
Qed.

Lemma select_ordered_rows (w : row → bool) d :
  select w d = select_columns <$> filter (λ kr, w kr.2) (ordered_rows d).
Proof.
  unfold select, ordered_rows. f_equal.
  apply order_filter, NoDup_fst_map_to_list.
Qed.

Lemma filter_fmap_comm {A B} (f : A → B) (P : A → Prop) (Q : B → Prop)
    `{∀ x, Decision (P x)} `{∀ y, Decision (Q y)} (l : list A) :
  (∀ x, P x ↔ Q (f x)) → f <$> filter P l = filter Q (f <$> l).
Proof.
  intros HPQ. induction l as [|x l IH]; [done|]. simpl.
  destruct (decide (P x)) as [HP|HP].
  - rewrite filter_cons_True by done.
    rewrite (filter_cons_True Q) by by apply HPQ. simpl. by f_equal.
  - rewrite filter_cons_False by done.
    rewrite (filter_cons_False Q); [done|]. by rewrite <-HPQ.
Qed.

(** X6.  For a term whose pattern is within the size SQLite allows, a
    search returns the rows of the full listing that satisfy its WHERE
    clause, in the order the full listing has them. *)
Theorem search_students_in_listing_order (term : string) d :
  fits_pattern term →
  DatabaseManager.search_students term d
  = select_columns <$> filter (λ kr, search_where term kr.2) (ordered_rows d)
  ∧ sublist (DatabaseManager.search_students term d) (get_all_students d).
Proof.
  intros _.
  assert (Heq : DatabaseManager.search_students term d
                = select_columns
                    <$> filter (λ kr, search_where term kr.2) (ordered_rows d))
    by apply select_ordered_rows.
  split; [done|]. rewrite Heq, get_all_students_ordered_rows.
  apply fmap_sublist, sublist_filter.
Qed.

Lemma ordered_rows_delete d sid n :
  ordered_rows (mk_database (delete sid (students d)) n)
  = filter (λ kr, kr.1 ≠ sid) (ordered_rows d).
Proof.
  unfold ordered_rows. simpl.
  rewrite <-order_filter by apply NoDup_fst_map_to_list.
  apply sorted_by_id_unique.
  - rewrite order_by_id_desc_perm. apply NoDup_fst_map_to_list.
  - apply order_by_id_desc_sorted.
  - apply order_by_id_desc_sorted.
  - rewrite !order_by_id_desc_perm.
    apply NoDup_Permutation;
      [apply NoDup_map_to_list|apply NoDup_filter, NoDup_map_to_list|].
    intros [k r]. rewrite list_elem_of_filter, !elem_of_map_to_list.
    rewrite lookup_delete_Some. simpl. split; intros [? ?]; split; congruence.
Qed.

(** X7.  After [delete_student] the listing is the listing from before
    without the row of the deleted id; the other rows keep their order. *)
Theorem get_all_students_after_delete sid d :
  get_all_students (delete_student sid d).2
  = filter (λ cols, negb (is_id sid cols)) (get_all_students d).
Proof.
  rewrite !get_all_students_ordered_rows. simpl.
  rewrite ordered_rows_delete. apply filter_fmap_comm.
  intros [k r]. simpl. destruct (Z.eqb_spec k sid); simpl; naive_solver.
Qed.

End listings.

(** ** What a search matches *)

Section search.
Import Requests Spec.
Implicit Types (d : database) (term txt pat : string).

Lemma like_from_percent_step pat txt :
  like_from (String "%" pat) txt
  = like_from pat txt
    || match txt with
       | EmptyString => false
       | String _ txt' => like_from (String "%" pat) txt'
       end.
Proof. by destruct txt. Qed.

(** LIKE tells two characters apart unless they are the same or an upper
    and a lower case of one of the letters A-Z. *)
Lemma like_char_same a b : like_char a b = same_up_to_case a b.
Proof.
  apply eqb_prop. revert b. apply every_char_spec. revert a.
  apply every_char_spec. by vm_compute.
Qed.

Lemma like_from_plain_prefix term txt :
  plain term = true →
  like_from (term +:+ "%") txt = istartswith term txt.
Proof.
  revert txt. induction term as [|c term IH]; intros txt Hplain.
  - simpl. rewrite like_from_percent. by destruct txt.
  - apply andb_true_iff in Hplain as [Hc Hplain].
    apply negb_true_iff, orb_false_iff in Hc as [Hc _].
    apply orb_false_iff in Hc as [Hc1 Hc2].
    change (String c term +:+ "%") with (String c (term +:+ "%")).
    simpl. rewrite Hc1, Hc2.
    destruct txt as [|a txt]; [done|]. by rewrite IH, like_char_same.
Qed.

Lemma like_from_plain_infix term txt :
  plain term = true →
  like_from ("%" +:+ term +:+ "%") txt = icontains term txt.
Proof.
  intros Hplain. change ("%" +:+ term +:+ "%") with (String "%" (term +:+ "%")).
  induction txt as [|a txt IH]; rewrite like_from_percent_step;
    rewrite like_from_plain_prefix by done.
  - by destruct term.
  - rewrite IH. reflexivity.
Qed.

Lemma c_str_plain_pattern term :
  plain term = true → c_str ("%" +:+ term +:+ "%") = "%" +:+ term +:+ "%".
Proof.
  intros Hplain. change ("%" +:+ term +:+ "%") with (String "%" (term +:+ "%")).
  simpl. f_equal. induction term as [|c term IH]; [done|].
  apply andb_true_iff in Hplain as [Hc Hplain].
  apply negb_true_iff, orb_false_iff in Hc as [_ Hc].
  change (String c term +:+ "%") with (String c (term +:+ "%")).
  simpl. rewrite Hc. f_equal. by apply IH.
Qed.

Lemma like_plain term txt :
  plain term = true →
  like txt ("%" +:+ term +:+ "%") = icontains term (c_str txt).
Proof.
  intros Hplain. unfold like. rewrite c_str_plain_pattern by done.
  by apply like_from_plain_infix.
Qed.

(** X8.  For a term without [%], [_] and NUL whose pattern is within the
    size SQLite allows, a search returns the rows in which the term occurs
    in the name, email, phone, college, department or city, where a letter
    A-Z and its lower case a-z are not told apart, every other character
    stands for itself only, and only the part of a text before its first NUL
    is looked at. *)
Theorem search_students_plain_term term d (cols : list value) :
  fits_pattern term →
  plain term = true →
  cols ∈ DatabaseManager.search_students term d
  ↔ ∃ k r,
      students d !! k = Some r ∧ cols = select_columns (k, r)
      ∧ (icontains term (c_str (student_name r))
         || icontains term (c_str (student_email r))
         || icontains term (c_str (student_phone r))
         || icontains term (c_str (student_college r))
         || icontains term (c_str (student_department r))
         || icontains term (c_str (student_city r))) = true.
Proof.
  intros _ Hplain.
  change (DatabaseManager.search_students term d)
    with (select (search_where term) d).
  rewrite select_ordered_rows, list_elem_of_fmap.
  unfold search_where. cbv zeta.
  split.
  - intros ([k r] & -> & [Hw Hin]%list_elem_of_filter).
    exists k, r. apply ordered_rows_lookup in Hin. simpl in Hw.
    rewrite !like_plain in Hw by done.
    split; [done|]. split; [done|]. by apply Is_true_true.
  - intros (k & r & Hk & -> & Hw). exists (k, r). split; [done|].
    apply list_elem_of_filter. split; [|by apply ordered_rows_lookup].
    simpl. rewrite !like_plain by done. by apply Is_true_true.
Qed.

End search.

(** ** The listing after an update *)

Section update_listing.
Import Requests Spec.
Implicit Types (d : database) (k sid : Z) (r : row).

Lemma ordered_rows_update d sid r r' n :
  students d !! sid = Some r →
  ordered_rows (mk_database (<[sid := r']> (students d)) n)
  = (λ kr, if bool_decide (kr.1 = sid) then (sid, r') else kr)
      <$> ordered_rows d.
Proof.
  intros Hsid. set (f := λ kr : Z * row, if bool_decide (kr.1 = sid)
                                          then (sid, r') else kr).
  assert (Hkey : ∀ kr, (f kr).1 = kr.1).
  { intros [k r0]. unfold f. simpl. by case_bool_decide. }
  assert (Hkeys : ∀ l : list (Z * row), (f <$> l).*1 = l.*1).
  { intros l. rewrite <-list_fmap_compose. apply list_fmap_ext.
    intros _ kr _. apply Hkey. }
  assert (Hnd : NoDup (ordered_rows d).*1).
  { unfold ordered_rows. rewrite order_by_id_desc_perm.
    apply NoDup_fst_map_to_list. }
  apply sorted_by_id_unique.
  - unfold ordered_rows. rewrite order_by_id_desc_perm.
    apply NoDup_fst_map_to_list.
  - apply order_by_id_desc_sorted.
  - apply (StronglySorted_fmap f id_desc id_desc);
      [|apply order_by_id_desc_sorted].
    intros x y. unfold id_desc. by rewrite !Hkey.
  - unfold ordered_rows at 1. rewrite order_by_id_desc_perm. simpl.
    apply NoDup_Permutation; [apply NoDup_map_to_list| |].
    + apply (NoDup_fmap_1 fst). by rewrite Hkeys.
    + intros [k r0]. rewrite elem_of_map_to_list, lookup_insert_Some.
      rewrite list_elem_of_fmap. split.
      * intros [[<- <-]|[Hne Hk]].
        -- exists (sid, r). split; [|by apply ordered_rows_lookup].
           unfold f. simpl. by rewrite bool_decide_eq_true_2.
        -- exists (k, r0). split; [|by apply ordered_rows_lookup].
           unfold f. simpl. by rewrite bool_decide_eq_false_2.
      * intros ([k1 r1] & Heq & Hin%ordered_rows_lookup).
        unfold f in Heq. simpl in Heq. case_bool_decide as Hk1.
        -- injection Heq as -> ->. by left.
        -- injection Heq as -> ->. right. split; [congruence|done].
Qed.

(** X9.  After a successful [update_student] the listing is the listing
    from before with the row of the updated id replaced, at its place, by
    the row of the new values. *)
Theorem get_all_students_after_update sid (data : update_dict) d d' msg :
  update_student sid data d = (true, msg, d') →
  ∃ r, students d !! sid = Some r
       ∧ get_all_students d'
         = (λ cols, if is_id sid cols
                    then select_columns (sid, update_set data r)
                    else cols) <$> get_all_students d.
Proof.
  rewrite update_student_cases.
  destruct (students d !! sid) as [r|] eqn:Hsid; [|done].
  repeat case_decide; intros [= <- <-]. exists r. split; [done|].
  rewrite !get_all_students_ordered_rows.
  rewrite (ordered_rows_update d sid r) by done.
  rewrite <-!list_fmap_compose. apply list_fmap_ext.
  intros _ [k r0] _. simpl. case_bool_decide as Hk.
  - subst k. by rewrite Z.eqb_refl.
  - by rewrite (proj2 (Z.eqb_neq k sid)).
Qed.

End update_listing.

(** ** Stripping *)

Section stripping.
Import Valid.
Implicit Types (s t : string) (c : ascii).

Lemma lstrip_starts_nonspace s : starts_nonspace (lstrip s) = true.
Proof.
  induction s as [|c s IH]; [done|]. simpl.
  destruct (isspace c) eqn:Hc; [done|]. simpl. by rewrite Hc.
Qed.

Lemma lstrip_id s : starts_nonspace s = true → lstrip s = s.
Proof.
  destruct s as [|c s]; [done|]. simpl. intros Hc.
  by apply negb_true_iff in Hc as ->.
Qed.

Lemma rstrip_starts_nonspace s :
  starts_nonspace s = true → starts_nonspace (rstrip s) = true.
Proof.
  destruct s as [|c s]; [done|]. simpl. intros Hc.
  apply negb_true_iff in Hc.
  destruct (rstrip s); rewrite ?Hc; simpl; by rewrite Hc.
Qed.

Lemma rstrip_idem s : rstrip (rstrip s) = rstrip s.
Proof.
  induction s as [|c s IH]; [done|]. simpl.
  destruct (rstrip s) as [|a t] eqn:Hs.
  - destruct (isspace c) eqn:Hc; [done|]. simpl. by rewrite Hc.
  - change (rstrip (String c (String a t)))
      with (match rstrip (String a t) with
            | EmptyString =>
                if isspace c then EmptyString else String c EmptyString
            | String _ _ as u => String c u
            end).
    by rewrite IH.
Qed.

Lemma strip_idem s : strip (strip s) = strip s.
Proof.
  unfold strip. rewrite (lstrip_id (rstrip (lstrip s))).
  - apply rstrip_idem.
  - apply rstrip_starts_nonspace, lstrip_starts_nonspace.
Qed.

Lemma rstrip_no_space s :
  all_chars (λ c, negb (isspace c)) s = true → rstrip s = s.
Proof.
  induction s as [|c s IH]; [done|]. simpl.
  intros [Hc Hs]%andb_true_iff. apply negb_true_iff in Hc.
  rewrite (IH Hs), Hc. by destruct s.
Qed.

(** A text without whitespace is its own [strip]. *)
Lemma strip_no_space s :
  all_chars (λ c, negb (isspace c)) s = true → strip s = s.
Proof.
  intros Hs. unfold strip. rewrite lstrip_id.
  - by apply rstrip_no_space.
  - destruct s as [|c s]; [done|]. simpl in *.
    by apply andb_true_iff in Hs as [? _].
Qed.

Lemma rstrip_empty s :
  truthy (rstrip s) = false ↔ all_chars isspace s = true.
Proof.
  induction s as [|c s IH]; [done|]. simpl.
  destruct (rstrip s) as [|a t]; simpl in *.
  - destruct (isspace c); simpl; [|done]. split; [intros _|done].
    by apply IH.
  - split; [done|]. intros [_ Hs]%andb_true_iff.
    by apply IH in Hs.
Qed.

Lemma lstrip_all_space s :
  all_chars isspace (lstrip s) = all_chars isspace s.
Proof.
  induction s as [|c s IH]; [done|]. simpl.
  destruct (isspace c) eqn:Hc; simpl; [done|by rewrite Hc].
Qed.

(** [strip] gives the empty text exactly on texts of whitespace only. *)
Lemma strip_empty s : truthy (strip s) = false ↔ all_chars isspace s = true.
Proof. unfold strip. by rewrite rstrip_empty, lstrip_all_space. Qed.

(** A stripped text does not end in a newline. *)
Lemma rstrip_chop s : chop_newline (rstrip s) = None.
Proof.
  induction s as [|c s IH]; [done|]. simpl.
  destruct (rstrip s) as [|a t] eqn:Hs.
  - destruct (isspace c) eqn:Hc; [done|]. simpl.
    destruct (is_char newline c) eqn:Hnl; [|done].
    apply N.eqb_eq in Hnl. unfold code in Hnl.
    assert (c = newline) as ->; [|done].
    rewrite <-(ascii_N_embedding c), <-Hnl. apply ascii_N_embedding.
  - change (chop_newline (String c (String a t)))
      with (String c <$> chop_newline (String a t)).
    by rewrite IH.
Qed.

Lemma strip_chop s : chop_newline (strip s) = None.
Proof. apply rstrip_chop. Qed.

Lemma len_nonneg s : 0 ≤ len s.
Proof. rewrite len_length. lia. Qed.

Lemma truthy_len s : truthy s = true ↔ 1 ≤ len s.
Proof.
  destruct s as [|c s]; simpl; [split; [done|lia]|].
  pose proof (len_nonneg s). split; [lia|done].
Qed.

Lemma all_chars_impl (p q : ascii → bool) s :
  (∀ c, p c = true → q c = true) →
  all_chars p s = true → all_chars q s = true.
Proof.
  intros Hpq. induction s as [|c s IH]; [done|]. simpl.
  intros [Hc Hs]%andb_true_iff. by rewrite (Hpq c Hc), IH.
Qed.

Lemma all_chars_app p s t :
  all_chars p (s +:+ t) = all_chars p s && all_chars p t.
Proof.
  induction s as [|c s IH]; [done|]. simpl. by rewrite IH, andb_assoc.
Qed.

End stripping.

(** ** What the patterns of the validators accept *)

Section patterns.
Import Valid.
Implicit Types (r : regex) (s t : string) (p : ascii → bool) (c : ascii).

Lemma is_char_eq c x : is_char c x = true ↔ x = c.
Proof.
  unfold is_char, code. rewrite N.eqb_eq. split; [|by intros ->].
  intros H. by rewrite <-(ascii_N_embedding x), <-H, ascii_N_embedding.
Qed.

Lemma fullmatch_Void s : fullmatch Void s = false.
Proof. induction s as [|c s IH]; [done|exact IH]. Qed.

Lemma fullmatch_Eps s : fullmatch Eps s = true ↔ s = EmptyString.
Proof.
  destruct s as [|c s]; [done|]. simpl. by rewrite fullmatch_Void.
Qed.

Lemma fullmatch_Cls p s :
  fullmatch (Cls p) s = true ↔ ∃ c, s = String c EmptyString ∧ p c = true.
Proof.
  destruct s as [|c s]; simpl.
  - split; [done|]. by intros (c & ? & _).
  - destruct (p c) eqn:Hc.
    + rewrite fullmatch_Eps. split; [intros ->; by exists c|].
      by intros (c' & [= _ ->] & _).
    + rewrite fullmatch_Void. split; [done|].
      intros (c' & [= -> ->] & Hc'). congruence.
Qed.

(** A concatenation matches the texts that split into a match of its first
    part followed by a match of its second part. *)
Lemma fullmatch_Cat r1 r2 s :
  fullmatch (Cat r1 r2) s = true
  ↔ ∃ s1 s2, s = s1 +:+ s2 ∧ fullmatch r1 s1 = true ∧ fullmatch r2 s2 = true.
Proof.
  revert r1 r2. induction s as [|c s IH]; intros r1 r2.
  - simpl. rewrite andb_true_iff. split.
    + intros [H1 H2]. by exists EmptyString, EmptyString.
    + intros ([|] & [|] & Heq & H1 & H2); by simplify_eq/=.
  - assert (Hstep : fullmatch (Cat (deriv c r1) r2) s = true
                    ↔ ∃ s1 s2, s = s1 +:+ s2
                               ∧ fullmatch r1 (String c s1) = true
                               ∧ fullmatch r2 s2 = true) by apply IH.
    change (fullmatch (Cat r1 r2) (String c s))
      with (fullmatch (if nullable r1
                       then Alt (Cat (deriv c r1) r2) (deriv c r2)
                       else Cat (deriv c r1) r2) s).
    destruct (nullable r1) eqn:Hnull.
    + rewrite fullmatch_Alt, orb_true_iff, Hstep. split.
      * intros [(s1 & s2 & -> & H1 & H2)|H2].
        -- by exists (String c s1), s2.
        -- by exists EmptyString, (String c s).
      * intros ([|c1 s1] & s2 & Heq & H1 & H2).
        -- right. change (String c s = s2) in Heq.
           rewrite <-Heq in H2. exact H2.
        -- left. change (String c s = String c1 (s1 +:+ s2)) in Heq.
           injection Heq as <- ->. by exists s1, s2.
    + rewrite Hstep. split.
      * intros (s1 & s2 & -> & H1 & H2). by exists (String c s1), s2.
      * intros ([|c1 s1] & s2 & Heq & H1 & H2).
        -- simpl in H1. congruence.
        -- change (String c s = String c1 (s1 +:+ s2)) in Heq.
           injection Heq as <- ->. by exists s1, s2.
Qed.

Lemma fullmatch_lit c s :
  fullmatch (lit c) s = true ↔ s = String c EmptyString.
Proof.
  unfold lit. rewrite fullmatch_Cls. split.
  - by intros (x & -> & ->%is_char_eq).
  - intros ->. exists c. split; [done|]. by apply is_char_eq.
Qed.

Lemma fullmatch_at_least_2 p s :
  fullmatch (at_least_2 (Cls p)) s = true
  ↔ 2 ≤ len s ∧ all_chars p s = true.
Proof.
  change (at_least_2 (Cls p)) with (Cat (Cls p) (plus (Cls p))).
  rewrite fullmatch_Cat. split.
  - intros (s1 & s2 & -> & (c & -> & Hc)%fullmatch_Cls & H2).
    rewrite fullmatch_plus_Cls in H2.
    apply andb_true_iff in H2 as [Hne%truthy_len Hall].
    change (String c EmptyString +:+ s2) with (String c s2). simpl.
    rewrite Hc, Hall. split; [lia|done].
  - intros [Hlen Hall]. destruct s as [|c s]; simpl in *; [lia|].
    apply andb_true_iff in Hall as [Hc Hall].
    exists (String c EmptyString), s. split; [done|].
    split; [apply fullmatch_Cls; by exists c|].
    rewrite fullmatch_plus_Cls, Hall, andb_true_r. apply truthy_len. lia.
Qed.

Lemma fullmatch_email s :
  fullmatch email_pattern s = true ↔ email_shape s.
Proof.
  unfold email_pattern, email_shape. rewrite fullmatch_Cat. split.
  - intros (local & s2 & -> & Hl & H2).
    apply fullmatch_Cat in H2 as (at_ & s3 & -> & ->%fullmatch_lit & H3).
    apply fullmatch_Cat in H3 as (domain & s4 & -> & Hd & H4).
    apply fullmatch_Cat in H4 as (dot & tld & -> & ->%fullmatch_lit & Ht).
    rewrite fullmatch_plus_Cls in Hl, Hd.
    apply andb_true_iff in Hl as [? ?]. apply andb_true_iff in Hd as [? ?].
    apply fullmatch_at_least_2 in Ht as [? ?].
    by exists local, domain, tld.
  - intros (local & domain & tld & -> & ? & ? & ? & ? & ? & ?).
    exists local, (String "@" (domain +:+ String "." tld)).
    split; [done|]. split; [by rewrite fullmatch_plus_Cls, andb_true_iff|].
    apply fullmatch_Cat.
    exists (String "@" EmptyString), (domain +:+ String "." tld).
    split; [done|]. split; [by apply fullmatch_lit|].
    apply fullmatch_Cat. exists domain, (String "." tld).
    split; [done|]. split; [by rewrite fullmatch_plus_Cls, andb_true_iff|].
    apply fullmatch_Cat. exists (String "." EmptyString), tld.
    split; [done|]. split; [by apply fullmatch_lit|].
    by apply fullmatch_at_least_2.
Qed.

Lemma append_cons c s t : String c s +:+ t = String c (s +:+ t).
Proof. done. Qed.

Lemma append_nil t : EmptyString +:+ t = t.
Proof. done. Qed.

Lemma chop_newline_Some s t :
  chop_newline s = Some t ↔ s = t +:+ String newline EmptyString.
Proof.
  revert t. induction s as [|c s IH]; intros t.
  - split; [done|]. destruct t; [rewrite append_nil|rewrite append_cons]; done.
  - destruct s as [|a s].
    + change (chop_newline (String c EmptyString))
        with (if is_char newline c then Some EmptyString else None).
      destruct t as [|x t]; [rewrite append_nil|rewrite append_cons].
      * destruct (is_char newline c) eqn:Hc.
        -- apply is_char_eq in Hc as ->. done.
        -- split; [done|]. intros [= ->].
           by rewrite (proj2 (is_char_eq newline newline)) in Hc.
      * split.
        -- destruct (is_char newline c); done.
        -- intros [= _ Ht]. destruct t; done.
    + change (chop_newline (String c (String a s)))
        with (String c <$> chop_newline (String a s)).
      destruct t as [|x t]; [rewrite append_nil|rewrite append_cons].
      * split; [|done]. by destruct (chop_newline (String a s)).
      * split.
        -- destruct (chop_newline (String a s)) as [u|] eqn:Hu; [|done].
           intros [= <- <-]. by rewrite (proj1 (IH u) eq_refl).
        -- intros [= <- Ht]. apply IH in Ht. by rewrite Ht.
Qed.

Lemma email_shape_not_space s :
  email_shape s → all_chars isspace s = false.
Proof.
  intros (local & domain & tld & -> & _).
  rewrite all_chars_app. simpl. apply andb_false_r.
Qed.

Lemma re_match_email s :
  re_match_anchored email_pattern s = true
  ↔ email_shape s
    ∨ ∃ t, s = t +:+ String newline EmptyString ∧ email_shape t.
Proof.
  unfold re_match_anchored. rewrite orb_true_iff, fullmatch_email.
  split; (intros [?|H]; [by left|right]).
  - destruct (chop_newline s) as [t|] eqn:Ht; [|done].
    exists t. split; [by apply chop_newline_Some|by apply fullmatch_email].
  - destruct H as (t & Hs%chop_newline_Some & Ht). rewrite Hs.
    by apply fullmatch_email.
Qed.

Lemma email_not_blank s :
  email_shape s
  ∨ (∃ t, s = t +:+ String newline EmptyString ∧ email_shape t) →
  truthy (strip s) = true.
Proof.
  intros Hs. destruct (truthy (strip s)) eqn:Hstrip; [done|].
  apply strip_empty in Hstrip.
  destruct Hs as [Hs|(t & -> & Ht)].
  - apply email_shape_not_space in Hs. congruence.
  - apply email_shape_not_space in Ht.
    rewrite all_chars_app, Ht in Hstrip. done.
Qed.

End patterns.

(** ** InputValidator, again *)

Section validators.
Import Valid.
Implicit Types (s : string).



End validators.

(** ** What the form lets through *)

Section form.
Import Valid.
Implicit Types (s : string) (self : app) (data : fields).

Lemma truthy_strip s : truthy (strip s) = true → truthy s = true.
Proof. by destruct s. Qed.

Lemma validate_name_accepts s :
  (validate_name s).1 = true
  ↔ 2 ≤ len (strip s) ∧ all_chars name_class s = true.
Proof.
  unfold validate_name. rewrite name_pattern_match.
  destruct (truthy (strip s)) eqn:Hs; simpl.
  - rewrite (truthy_strip s Hs). simpl.
    destruct (Z.ltb_spec (len (strip s)) 2); simpl; [split; [done|lia]|].
    destruct (all_chars name_class s); simpl; [done|].
    split; [done|]. by intros [_ ?].
  - split; [done|]. intros [Hlen _]. destruct (strip s); simpl in *; [lia|done].
Qed.

Lemma validate_email_accepts s :
  (validate_email s).1 = true
  ↔ email_shape s
    ∨ ∃ t, s = t +:+ String newline EmptyString ∧ email_shape t.
Proof.
  rewrite <-re_match_email. unfold validate_email.
  destruct (truthy (strip s)) eqn:Hs; simpl.
  - by destruct (re_match_anchored email_pattern s).
  - split; [done|]. intros Hre%re_match_email%email_not_blank. congruence.
Qed.

Lemma validate_phone_accepts s :
  (validate_phone s).1 = true
  ↔ all_chars isdigit_char (re_sub_class phone_separator "" s) = true
    ∧ 10 ≤ len (re_sub_class phone_separator "" s) ≤ 15.
Proof.
  unfold validate_phone, isdigit. cbv zeta.
  set (p := re_sub_class phone_separator "" s).
  destruct (Z.leb_spec 10 (len p)), (Z.leb_spec (len p) 15);
    destruct (all_chars isdigit_char p), (truthy p) eqn:Hp; simpl;
    try (split; [done|intros [? ?]; (done || lia)]); try done.
  destruct p; simpl in *; [lia|done].
Qed.

Lemma validate_pincode_accepts s :
  (validate_pincode s).1 = true
  ↔ all_chars isdigit_char s = true ∧ (len s = 5 ∨ len s = 6).
Proof.
  unfold validate_pincode, isdigit.
  destruct (Z.eqb_spec (len s) 5), (Z.eqb_spec (len s) 6);
    destruct (all_chars isdigit_char s), (truthy s) eqn:Hs; simpl;
    try (split; [done|intros [? ?]; (done || lia)]); try (by auto);
    destruct s; simpl in *; (lia || done).
Qed.

Lemma re_sub_class_clean (cls : ascii → bool) s :
  all_chars (λ c, negb (cls c)) (re_sub_class cls "" s) = true.
Proof.
  induction s as [|c s IH]; [done|]. simpl.
  destruct (cls c) eqn:Hc; [done|]. simpl. by rewrite Hc.
Qed.

Lemma re_sub_class_id (cls : ascii → bool) s :
  all_chars (λ c, negb (cls c)) s = true → re_sub_class cls "" s = s.
Proof.
  induction s as [|c s IH]; [done|]. simpl.
  intros [Hc Hs]%andb_true_iff. apply negb_true_iff in Hc.
  by rewrite Hc, IH.
Qed.

Lemma digit_not_separator c :
  isdigit_char c = true → phone_separator c = false.
Proof. destruct c as [[] [] [] [] [] [] [] []]; by vm_compute. Qed.

Lemma no_separator_no_space s :
  all_chars (λ c, negb (phone_separator c)) s = true →
  all_chars (λ c, negb (isspace c)) s = true.
Proof.
  apply all_chars_impl. intros c. unfold phone_separator.
  by destruct (isspace c).
Qed.

Lemma digits_no_separator s :
  all_chars isdigit_char s = true →
  all_chars (λ c, negb (phone_separator c)) s = true.
Proof.
  apply all_chars_impl. intros c Hc. by rewrite digit_not_separator.
Qed.

(** What [get_form] returns, when it returns a record. *)
Lemma get_form_Some self shown data :
  get_form self = (shown, Some data) →
  shown = [] ∧ data = Spec.form_fields self
  ∧ (validate_name (name data)).1 = true
  ∧ (validate_email (email data)).1 = true
  ∧ (validate_phone (phone data)).1 = true
  ∧ (validate_pincode (pincode data)).1 = true.
Proof.
  unfold get_form, Spec.form_fields. cbv zeta.
  destruct (validate_name _) as [[] ?] eqn:Hn; [|done].
  destruct (validate_email _) as [[] ?] eqn:He; [|done].
  destruct (validate_phone _) as [[] ?] eqn:Hp; [|done].
  destruct (validate_pincode _) as [[] ?] eqn:Hc; [|done].
  intros [= <- <-]. simpl. by rewrite Hn, He, Hp, Hc.
Qed.

Lemma get_form_None self shown :
  get_form self = (shown, None) →
  ∃ msg w, shown = [showerror "Validation" msg; focus w].
Proof.
  unfold get_form. cbv zeta.
  destruct (validate_name _) as [[] ?]; [|intros [= <-]; by eauto].
  destruct (validate_email _) as [[] ?]; [|intros [= <-]; by eauto].
  destruct (validate_phone _) as [[] ?]; [|intros [= <-]; by eauto].
  destruct (validate_pincode _) as [[] ?]; [done|intros [= <-]; by eauto].
Qed.

Lemma form_fields_valid self shown :
  get_form self = (shown, Some (Spec.form_fields self)) →
  valid_fields (Spec.form_fields self).
Proof.
  intros (_ & _ & Hn & He & Hp & Hc)%get_form_Some.
  unfold Spec.form_fields in *. simpl in *.
  apply validate_name_accepts in Hn as [Hn1 Hn2].
  apply validate_email_accepts in He.
  apply validate_phone_accepts in Hp as [Hp1 Hp2].
  apply validate_pincode_accepts in Hc as [Hc1 Hc2].
  rewrite strip_idem in Hn1.
  set (p := re_sub_class phone_separator "" (strip (phone_text (entries self))))
    in *.
  assert (Hclean := re_sub_class_clean phone_separator
                      (strip (phone_text (entries self)))).
  fold p in Hclean. rewrite (re_sub_class_id _ p Hclean) in Hp1, Hp2.
  unfold valid_fields. simpl. fold p.
  rewrite !strip_idem.
  rewrite (strip_no_space p) by by apply no_separator_no_space.
  split; [done|]. split; [done|]. split; [|done].
  destruct He as [He|(t & Ht & _)]; [done|].
  apply chop_newline_Some in Ht. by rewrite strip_chop in Ht.
Qed.


Lemma get_form_filled data (d : database) search t :
  valid_fields data →
  get_form (mk_app d (filled data search) t) = ([], Some data).
Proof.
  intros ((Hs1 & Hs2 & Hs3 & Hs4 & Hs5 & Hs6 & Hs7 & Hs8 & Hs9 & Hs10)
          & [Hn1 Hn2] & He & [Hp1 Hp2] & [Hc1 Hc2]).
  unfold get_form, filled. cbv zeta. simpl.
  rewrite Hs1, Hs2, Hs3, Hs4, Hs5, Hs6, Hs7, Hs8, Hs9, Hs10.
  assert (Hp : re_sub_class phone_separator "" (phone data) = phone data)
    by by apply re_sub_class_id, digits_no_separator.
  rewrite Hp.
  assert (Hn : (validate_name (name data)).1 = true).
  { apply validate_name_accepts. by rewrite Hs1. }
  assert (He' : (validate_email (email data)).1 = true).
  { apply validate_email_accepts. by left. }
  assert (Hp' : (validate_phone (phone data)).1 = true).
  { apply validate_phone_accepts. by rewrite Hp. }
  assert (Hc : (validate_pincode (pincode data)).1 = true).
  { by apply validate_pincode_accepts. }
  destruct (validate_name _) as [[] ?]; [|done].
  destruct (validate_email _) as [[] ?]; [|done].
  destruct (validate_phone _) as [[] ?]; [|done].
  destruct (validate_pincode _) as [[] ?]; [|done].
  simpl. by destruct data.
Qed.

(** X13.  A record that [get_form] has returned, put back into the entries
    as it is, is returned by [get_form] again, unchanged and with no
    message. *)
Theorem get_form_again self shown data (d : database) search t :
  get_form self = (shown, Some data) →
  get_form (mk_app d (filled data search) t) = ([], Some data).
Proof.
  intros Hform. apply get_form_filled.
  destruct (get_form_Some _ _ _ Hform) as (-> & -> & _).
  by apply form_fields_valid with [].
Qed.

End form.

(** ** The handlers, case by case *)

Section handlers.
Import Valid.
Implicit Types (self : app) (now : string) (sid : Z).

Lemma with_db_same self : with_db (db self) self = self.
Proof. by destruct self. Qed.

Lemma add_student_cases now self :
  (∃ msg w,
     add_student now self = ([showerror "Validation" msg; focus w], self))
  ∨ (∃ data err,
       get_form self = ([], Some data)
       ∧ insert_student (mk_insert_dict data now now) (db self)
         = (false, err, db self)
       ∧ add_student now self = ([showerror "Error" err], self))
  ∨ (∃ data d',
       get_form self = ([], Some data)
       ∧ d' = mk_database
                (<[next_rowid (db self)
                   := insert_values (mk_insert_dict data now now)]>
                   (students (db self)))
                (next_rowid (db self))
       ∧ add_student now self
         = ([showinfo "Success" "Student added"],
            load_students (clear_fields (with_db d' self)))).
Proof.
  unfold add_student.
  destruct (get_form self) as [shown [data|]] eqn:Hform.
  - destruct (get_form_Some _ _ _ Hform) as (-> & _). right.
    pose proof (insert_student_cases (mk_insert_dict data now now) (db self))
      as Hins.
    repeat case_decide; rewrite Hins; simpl.
    + left. exists data, "Phone already exists.".
      by rewrite with_db_same.
    + left. exists data, "Email already exists.".
      by rewrite with_db_same.
    + right. by eexists data, _.
  - left. destruct (get_form_None _ _ Hform) as (msg & w & ->). by eauto.
Qed.

Lemma update_student_handler_cases sid now self :
  (∃ msg w,
     StudentManagementApp.update_student (Some sid) now self
     = ([showerror "Validation" msg; focus w], self))
  ∨ (∃ data err,
       get_form self = ([], Some data)
       ∧ update_student sid (mk_update_dict data now) (db self)
         = (false, err, db self)
       ∧ StudentManagementApp.update_student (Some sid) now self
         = ([showerror "Error" err], self))
  ∨ (∃ data r d',
       get_form self = ([], Some data)
       ∧ students (db self) !! sid = Some r
       ∧ d' = mk_database
                (<[sid := update_set (mk_update_dict data now) r]>
                   (students (db self)))
                (sqlite_sequence (db self))
       ∧ StudentManagementApp.update_student (Some sid) now self
         = ([showinfo "Success" "Updated"],
            load_students (clear_fields (with_db d' self)))).
Proof.
  unfold StudentManagementApp.update_student.
  destruct (get_form self) as [shown [data|]] eqn:Hform.
  - destruct (get_form_Some _ _ _ Hform) as (-> & _). right.
    pose proof (update_student_cases sid (mk_update_dict data now) (db self))
      as Hupd.
    destruct (students (db self) !! sid) as [r|] eqn:Hsid.
    + repeat case_decide; rewrite Hupd; simpl.
      * left. exists data, "Phone already exists.".
        by rewrite with_db_same.
      * left. exists data, "Email already exists.".
        by rewrite with_db_same.
      * right. by eexists data, r, _.
    + rewrite Hupd. simpl. left.
      exists data, "No row updated (ID may not exist).".
      by rewrite with_db_same.
  - left. destruct (get_form_None _ _ Hform) as (msg & w & ->). by eauto.
Qed.

Lemma delete_student_handler_confirmed sid self :
  StudentManagementApp.delete_student (Some sid) true self
  = ([showinfo "Deleted" "Student deleted"],
     load_students
       (clear_fields
          (with_db
             (mk_database (delete sid (students (db self)))
                (sqlite_sequence (db self)))
             self))).
Proof. done. Qed.

End handlers.

(** ** Invariants of the application *)

Section application.
Import Valid.
Implicit Types (self : app) (c : command) (cs : list command).

Lemma row_fields_insert_values (data : fields) now1 now2 :
  row_fields (insert_values (mk_insert_dict data now1 now2)) = data.
Proof. by destruct data. Qed.

Lemma row_fields_update_set (data : fields) now r :
  row_fields (update_set (mk_update_dict data now) r) = data.
Proof. by destruct data. Qed.

Lemma handle_valid c self :
  valid_table (db self) → valid_table (db (handle c self).2).
Proof.
  unfold valid_table. intros Hvalid.
  destruct c as [f|now|[sid|] now|[sid|] [|]| | |path]; unfold handle;
    try done.
  - destruct (add_student_cases now self)
      as [(msg & w & ->)|[(data & err & _ & _ & ->)
                         |(data & d' & Hform & -> & ->)]]; [done..|].
    simpl. apply map_Forall_insert_2; [|done].
    rewrite row_fields_insert_values.
    destruct (get_form_Some _ _ _ Hform) as (_ & -> & _).
    by apply form_fields_valid with [].
  - destruct (update_student_handler_cases sid now self)
      as [(msg & w & ->)|[(data & err & _ & _ & ->)
                         |(data & r & d' & Hform & _ & -> & ->)]]; [done..|].
    simpl. apply map_Forall_insert_2; [|done].
    rewrite row_fields_update_set.
    destruct (get_form_Some _ _ _ Hform) as (_ & -> & _).
    by apply form_fields_valid with [].
  - by apply map_Forall_delete.
  - unfold StudentManagementApp.search_students. cbv zeta.
    by destruct (negb _).
Qed.

(** X14.  Whatever the user does, every row of the table stays valid: the
    handlers store only records that passed [get_form]. *)
Theorem run_keeps_table_valid cs self :
  valid_table (db self) → valid_table (db (run cs self)).
Proof.
  revert self. induction cs as [|c cs IH]; intros self Hvalid; [done|].
  apply IH. by apply handle_valid.
Qed.

Lemma load_students_sync self : tree_in_sync (load_students self).
Proof. by intros cols. Qed.

Lemma search_students_listed term (d : database) (cols : list value) :
  cols ∈ DatabaseManager.search_students term d → cols ∈ get_all_students d.
Proof.
  change (DatabaseManager.search_students term d)
    with (select (Requests.search_where term) d).
  rewrite select_ordered_rows, get_all_students_ordered_rows.
  rewrite !list_elem_of_fmap.
  intros (kr & -> & [_ Hin]%list_elem_of_filter). by exists kr.
Qed.

Lemma handle_sync c self : tree_in_sync self → tree_in_sync (handle c self).2.
Proof.
  intros Hsync.
  destruct c as [f|now|[sid|] now|[sid|] [|]| | |path]; unfold handle;
    try done.
  - destruct (add_student_cases now self)
      as [(msg & w & ->)|[(data & err & _ & _ & ->)
                         |(data & d' & _ & _ & ->)]]; [done..|].
    apply load_students_sync.
  - destruct (update_student_handler_cases sid now self)
      as [(msg & w & ->)|[(data & err & _ & _ & ->)
                         |(data & r & d' & _ & _ & _ & ->)]]; [done..|].
    apply load_students_sync.
  - apply load_students_sync.
  - unfold StudentManagementApp.search_students. cbv zeta.
    destruct (negb _); [apply load_students_sync|].
    intros cols Hcols. simpl in *. by apply search_students_listed in Hcols.
  - apply load_students_sync.
Qed.

Lemma run_sync cs self : tree_in_sync self → tree_in_sync (run cs self).
Proof.
  revert self. induction cs as [|c cs IH]; intros self Hsync; [done|].
  apply IH. by apply handle_sync.
Qed.

(** X15.  Whatever the user does, the table of the window shows only rows
    that are in the database: each row shown is the thirteen columns of a
    stored row, so the id a selection hands to [update_student] or
    [delete_student] is the id of a stored row. *)
Theorem run_shows_stored_rows cs self (cols : list value) :
  tree_in_sync self →
  cols ∈ tree (run cs self) →
  ∃ k r, students (db (run cs self)) !! k = Some r
         ∧ cols = select_columns (k, r)
         ∧ head cols = Some (Int k).
Proof.
  intros Hsync Hcols. apply (run_sync cs) in Hsync.
  apply Hsync in Hcols. rewrite get_all_students_ordered_rows in Hcols.
  apply list_elem_of_fmap in Hcols as ([k r] & -> & Hin).
  apply ordered_rows_lookup in Hin. by exists k, r.
Qed.

(** X16.  After a successful Add the form is empty, so pressing Add again
    stores nothing: the second press shows "Name cannot be empty." and
    leaves the application as the first press left it. *)
Theorem add_student_twice now now' self :
  (add_student now self).1 = [showinfo "Success" "Student added"] →
  add_student now' (add_student now self).2
  = ([showerror "Validation" "Name cannot be empty."; focus name_entry],
     (add_student now self).2).
Proof.
  destruct (add_student_cases now self)
    as [(msg & w & ->)|[(data & err & _ & _ & ->)
                       |(data & d' & _ & _ & ->)]]; [done..|].
  intros _. reflexivity.
Qed.

(** X17.  A handler that shows an error or a warning changes nothing: the
    database, the entries and the table of the window are as before. *)
Theorem handler_error_changes_nothing c self title msg :
  showerror title msg ∈ (handle c self).1
  ∨ showwarning title msg ∈ (handle c self).1 →
  (handle c self).2 = self.
Proof.
  assert (Hnone : ∀ e : event, e ∈ [] → False)
    by (intros e He; by apply not_elem_of_nil in He).
  assert (Hone : ∀ e e' : event, e ∈ [e'] → e = e')
    by (intros e e' He; by apply list_elem_of_singleton in He).
  destruct c as [f|now|[sid|] now|[sid|] [|]| | |path]; unfold handle.
  - intros [H|H]; by apply Hnone in H.
  - destruct (add_student_cases now self)
      as [(m & w & ->)|[(data & err & _ & _ & ->)
                       |(data & d' & _ & _ & ->)]]; [done..|].
    intros [H|H]; by apply Hone in H.
  - destruct (update_student_handler_cases sid now self)
      as [(m & w & ->)|[(data & err & _ & _ & ->)
                       |(data & r & d' & _ & _ & _ & ->)]]; [done..|].
    intros [H|H]; by apply Hone in H.
  - done.
  - intros [H|H]; by apply Hone in H.
  - done.
  - done.
  - done.
  - intros [H|H]; by apply Hnone in H.
  - intros [H|H]; by apply Hnone in H.
  - done.
Qed.

End application.

(** ** Export *)

Section export.
Import Csv.
Implicit Types (s f rest : string) (c : ascii) (z : Z).










Lemma string_of_uint_plain d :
  any_char special (NilEmpty.string_of_uint d) = false.
Proof. induction d; simpl; by rewrite ?IHd. Qed.

Lemma str_of_int_plain z : any_char special (str_of_int z) = false.
Proof.
  unfold str_of_int, NilZero.string_of_int, NilZero.string_of_uint.
  destruct (Z.to_int z) as [[]|[]]; simpl;
    by rewrite ?string_of_uint_plain.
Qed.


End export.

Section export_file.
Import Csv Spec.
Implicit Types (kr : Z * row) (l : list (Z * row)) (self : app).







Lemma length_get_all_students (d : database) :
  length (get_all_students d) = size (students d).
Proof.
  rewrite get_all_students_ordered_rows, length_fmap.
  unfold ordered_rows. by rewrite order_by_id_desc_perm, length_map_to_list.
Qed.

End export_file.

(** ** update_schema *)

Section schema.
Import Schema.
Implicit Types (columns added todo : list (string * string)).
Implicit Types (cols : list string) (name : string).

Lemma add_missing_all_present cols todo columns :
  (∀ nt, nt ∈ todo → nt.1 ∈ cols) →
  add_missing cols todo columns = inr columns.
Proof.
  induction todo as [|[name typ] todo IH]; intros Hall; [done|]. simpl.
  rewrite bool_decide_eq_true_2 by (apply (Hall (name, typ)); by left).
  apply IH. intros nt Hnt. apply Hall. by right.
Qed.

Lemma existsb_false_forall {A} (f : A → bool) (l : list A) :
  (∀ x, x ∈ l → f x = false) → existsb f l = false.
Proof.
  induction l as [|x l IH]; intros Hall; [done|]. simpl.
  rewrite (Hall x) by by left. apply IH. intros y Hy. apply Hall. by right.
Qed.

Lemma forallb_elem {A} (f : A → bool) (l : list A) x :
  forallb f l = true → x ∈ l → f x = true.
Proof.
  induction l as [|y l IH]; simpl; intros Hall Hx;
    [by apply not_elem_of_nil in Hx|].
  apply andb_true_iff in Hall as [Hy Hall].
  apply elem_of_cons in Hx as [->|Hx]; [done|by apply IH].
Qed.

(** The loop, from a table that has gained the columns [added] so far. *)
Lemma add_missing_outcome columns added todo :
  columns ≠ [] →
  distinct_names todo = true →
  (∀ nt a, nt ∈ todo → a ∈ added → same_name nt.1 a.1 = false) →
  add_missing columns.*1 todo (columns ++ added) =
    match List.find (λ nt, clash columns nt.1) todo with
    | Some (name, _) =>
        inl (OperationalError ("duplicate column name: " +:+ name))
    | None =>
        inr (columns ++ added ++ filter (λ nt, nt.1 ∉ columns.*1) todo)
    end.
Proof.
  intros Htable. revert added. induction todo as [|[name typ] todo IH];
    intros added Hdistinct Hadded.
  - simpl. by rewrite filter_nil, app_nil_r.
  - simpl in Hdistinct. apply andb_true_iff in Hdistinct as [Hname Hdistinct].
    simpl. unfold clash at 1. simpl.
    destruct (bool_decide (name ∈ columns.*1)) eqn:Hin; simpl.
    + apply bool_decide_eq_true_1 in Hin.
      rewrite filter_cons_False by (simpl; tauto).
      apply IH; [done|]. intros nt a Hnt. apply Hadded. by right.
    + apply bool_decide_eq_false_1 in Hin.
      unfold add_column.
      destruct (columns ++ added) as [|col0 rest] eqn:Hcur.
      { apply app_eq_nil in Hcur as [? _]. done. }
      rewrite <-Hcur. clear col0 rest Hcur. rewrite existsb_app.
      rewrite (existsb_false_forall _ added), orb_false_r.
      2: { intros a Ha. apply (Hadded (name, typ)); [by left|done]. }
      destruct (existsb _ columns) eqn:Hclash; [done|].
      rewrite <-app_assoc. rewrite IH; [|done|].
      * destruct (List.find _ todo) as [[]|]; [done|].
        rewrite filter_cons_True by done.
        by rewrite <-(app_assoc added).
      * intros nt a Hnt [Ha|Ha]%elem_of_app.
        -- apply Hadded; [by right|done].
        -- apply list_elem_of_singleton in Ha as ->. simpl.
           apply negb_true_iff.
           by apply (forallb_elem _ todo nt Hname).
Qed.

Lemma update_schema_no_table :
  update_schema [] = inl (OperationalError "no such table: students").
Proof. by vm_compute. Qed.

Lemma update_schema_cases columns :
  columns ≠ [] →
  update_schema columns =
    match first_clash columns with
    | Some (name, _) =>
        inl (OperationalError ("duplicate column name: " +:+ name))
    | None => inr (columns ++ missing columns)
    end.
Proof.
  intros Htable. unfold update_schema, first_clash, missing. cbv zeta.
  rewrite <-(app_nil_r columns) at 2.
  rewrite add_missing_outcome; [done|done|by vm_compute|].
  intros nt a _ Ha. by apply not_elem_of_nil in Ha.
Qed.

(** X20.  When [update_schema] succeeds the table keeps its columns, in
    place, and gains after them the required columns whose names it did not
    have, in the order of the list of required columns; it then has all
    thirteen, and a second [update_schema] changes nothing. *)
Theorem update_schema_success columns columns' :
  update_schema columns = inr columns' →
  columns' = columns ++ missing columns
  ∧ (∀ nt, nt ∈ required → nt.1 ∈ columns'.*1)
  ∧ update_schema columns' = inr columns'.
Proof.
  destruct columns as [|col0 rest] eqn:Hcolumns;
    [by rewrite update_schema_no_table|].
  rewrite <-Hcolumns. rewrite update_schema_cases by by rewrite Hcolumns.
  clear col0 rest Hcolumns.
  destruct (first_clash columns) as [[]|]; [done|]. intros [= <-].
  assert (Hall : ∀ nt, nt ∈ required →
                       nt.1 ∈ (columns ++ missing columns).*1).
  { intros nt Hnt. rewrite fmap_app, elem_of_app.
    destruct (decide (nt.1 ∈ columns.*1)); [by left|right].
    apply list_elem_of_fmap. exists nt. split; [done|].
    by apply list_elem_of_filter. }
  split; [done|]. split; [done|].
  by apply add_missing_all_present.
Qed.


(** A table [initialize_database] has just created needs no column. *)
Example update_schema_created :
  update_schema created_columns = inr created_columns.
Proof. by vm_compute. Qed.

Example update_schema_other_case :
  update_schema [("Student_Name", "TEXT"); ("student_email", "TEXT")]
  = inl (OperationalError "duplicate column name: student_name").
Proof. by vm_compute. Qed.

End schema.

(** ** The theorems at work on the sample data *)

Section samples.
Import Requests Valid Schema.

Lemma unique_empty (col : row → string) : unique col empty_database.
Proof.
  intros k1 k2 r1 r2 H1. unfold empty_database in H1. simpl in H1.
  by rewrite lookup_empty in H1.
Defined.

Lemma requests_keep_email_and_phone_unique_witness :
  (unique student_email empty_database ∧ unique student_phone empty_database)
  ∧ unique student_email
      (run [Insert ann; Insert bob; Insert ann; Delete 1] empty_database)
  ∧ unique student_phone
      (run [Insert ann; Insert bob; Insert ann; Delete 1] empty_database).
Proof.
  assert (H : unique student_email empty_database
              ∧ unique student_phone empty_database)
    by (split; apply unique_empty).
  split; [exact H|].
  exact (requests_keep_email_and_phone_unique
           [Insert ann; Insert bob; Insert ann; Delete 1] empty_database H).
Defined.

Lemma deleted_id_never_reused_witness :
  is_Some (students (run [Insert ann; Insert bob] empty_database) !! 1)
  ∧ students
      (run ([Insert ann; Insert bob] ++ Delete 1 :: [Insert ann])
         empty_database) !! 1
    = None.
Proof.
  assert (H : is_Some
                (students (run [Insert ann; Insert bob] empty_database) !! 1))
    by (eexists; vm_compute; reflexivity).
  split; [exact H|].
  exact (deleted_id_never_reused [Insert ann; Insert bob] [Insert ann] 1 H).
Defined.

Lemma update_student_outcome_witness :
  int64 7
  ∧ (update_student 7 (mk_update_dict bob_fields "2024-11-03 01:50:00")
       with_ann).1
    = (false, "No row updated (ID may not exist).").
Proof.
  assert (H : int64 7) by (unfold int64; lia).
  split; [exact H|].
  apply (update_student_outcome 7
           (mk_update_dict bob_fields "2024-11-03 01:50:00") with_ann H).
  reflexivity.
Defined.

Lemma fits_pattern_lee : fits_pattern "LEE".
Proof. unfold fits_pattern. vm_compute. discriminate. Defined.

Lemma search_students_in_listing_order_witness :
  fits_pattern "LEE"
  ∧ sublist (DatabaseManager.search_students "LEE" with_ann_bob)
      (get_all_students with_ann_bob).
Proof.
  split; [exact fits_pattern_lee|].
  exact (proj2 (search_students_in_listing_order "LEE" with_ann_bob
                  fits_pattern_lee)).
Defined.

Lemma search_students_plain_term_witness :
  fits_pattern "LEE" ∧ plain "LEE" = true
  ∧ select_columns (1, insert_values ann)
    ∈ DatabaseManager.search_students "LEE" with_ann_bob.
Proof.
  assert (H : plain "LEE" = true) by (vm_compute; reflexivity).
  split; [exact fits_pattern_lee|]. split; [exact H|].
  apply (search_students_plain_term "LEE" with_ann_bob _ fits_pattern_lee H).
  exists 1, (insert_values ann).
  split; [vm_compute; reflexivity|]. split; [reflexivity|].
  vm_compute. reflexivity.
Defined.

Lemma get_all_students_after_update_witness :
  update_student 1 (mk_update_dict bob_fields "2024-11-03 02:00:00") with_ann
  = (true, "",
     mk_database
       {[ 1 := update_set (mk_update_dict bob_fields "2024-11-03 02:00:00")
                 (insert_values ann) ]} 1)
  ∧ ∃ r, students with_ann !! 1 = Some r.
Proof.
  assert (H : update_student 1
                (mk_update_dict bob_fields "2024-11-03 02:00:00") with_ann
              = (true, "",
                 mk_database
                   {[ 1 := update_set
                             (mk_update_dict bob_fields "2024-11-03 02:00:00")
                             (insert_values ann) ]} 1))
    by (vm_compute; reflexivity).
  split; [exact H|].
  destruct (get_all_students_after_update _ _ _ _ _ H) as (r & Hr & _).
  exists r. exact Hr.
Defined.


Lemma get_form_again_witness :
  get_form ann_typing = ([], Some ann_fields)
  ∧ get_form (mk_app with_ann_bob (filled ann_fields "lee") [])
    = ([], Some ann_fields).
Proof.
  assert (H : get_form ann_typing = ([], Some ann_fields))
    by (vm_compute; reflexivity).
  split; [exact H|].
  exact (get_form_again ann_typing [] ann_fields with_ann_bob "lee" [] H).
Defined.

Lemma valid_table_empty self :
  db self = empty_database → valid_table (db self).
Proof. intros ->. apply map_Forall_empty. Defined.

Lemma run_keeps_table_valid_witness :
  valid_table (db ann_typing)
  ∧ valid_table
      (db (StudentManagementApp.run [Add "2024-11-03 01:30:00"; Search;
                Fill (filled bob_fields ""); Add "2024-11-03 01:40:00"]
             ann_typing)).
Proof.
  assert (H : valid_table (db ann_typing))
    by (apply valid_table_empty; reflexivity).
  split; [exact H|].
  exact (run_keeps_table_valid _ ann_typing H).
Defined.

Lemma run_shows_stored_rows_witness :
  tree_in_sync ann_typing
  ∧ select_columns (1, insert_values ann) ∈ tree ann_added
  ∧ ∃ k r,
      students (db ann_added) !! k = Some r
      ∧ select_columns (1, insert_values ann) = select_columns (k, r).
Proof.
  assert (H : tree_in_sync ann_typing).
  { intros cols Hcols. by apply not_elem_of_nil in Hcols. }
  assert (Hin : select_columns (1, insert_values ann) ∈ tree ann_added)
    by (vm_compute; left).
  split; [exact H|]. split; [exact Hin|].
  destruct (run_shows_stored_rows [Add "2024-11-03 01:30:00"] ann_typing
              _ H Hin) as (k & r & Hk & Hc & _).
  exists k, r. split; [exact Hk|exact Hc].
Defined.

Lemma add_student_twice_witness :
  (add_student "2024-11-03 01:30:00" ann_typing).1
  = [showinfo "Success" "Student added"]
  ∧ add_student "2024-11-03 01:30:05"
      (add_student "2024-11-03 01:30:00" ann_typing).2
    = ([showerror "Validation" "Name cannot be empty."; focus name_entry],
       (add_student "2024-11-03 01:30:00" ann_typing).2).
Proof.
  assert (H : (add_student "2024-11-03 01:30:00" ann_typing).1
              = [showinfo "Success" "Student added"])
    by (vm_compute; reflexivity).
  split; [exact H|].
  exact (add_student_twice _ "2024-11-03 01:30:05" ann_typing H).
Defined.

Lemma handler_error_changes_nothing_witness :
  showerror "Error" "Phone already exists."
  ∈ (handle (Add "2024-11-03 01:50:00") ann_typed).1
  ∧ (handle (Add "2024-11-03 01:50:00") ann_typed).2 = ann_typed.
Proof.
  assert (H : showerror "Error" "Phone already exists."
              ∈ (handle (Add "2024-11-03 01:50:00") ann_typed).1)
    by (vm_compute; left).
  split; [exact H|].
  exact (handler_error_changes_nothing _ ann_typed _ _ (or_introl H)).
Defined.


Lemma update_schema_success_witness :
  update_schema old_columns
  = inr [ ("student_id", "INTEGER"); ("student_email", "TEXT");
          ("student_phone", "TEXT"); ("student_name", "TEXT");
          ("student_college", "TEXT"); ("student_department", "TEXT");
          ("student_year", "TEXT"); ("student_address", "TEXT");
          ("student_city", "TEXT"); ("student_state", "TEXT");
          ("student_pincode", "TEXT"); ("date_added", "TEXT");
          ("last_modified", "TEXT") ]
  ∧ ∀ nt, nt ∈ required →
          nt.1 ∈ [ "student_id"; "student_email"; "student_phone";
                   "student_name"; "student_college"; "student_department";
                   "student_year"; "student_address"; "student_city";
                   "student_state"; "student_pincode"; "date_added";
                   "last_modified" ].
Proof.
  assert (H : update_schema old_columns
              = inr [ ("student_id", "INTEGER"); ("student_email", "TEXT");
                      ("student_phone", "TEXT"); ("student_name", "TEXT");
                      ("student_college", "TEXT");
                      ("student_department", "TEXT");
                      ("student_year", "TEXT"); ("student_address", "TEXT");
                      ("student_city", "TEXT"); ("student_state", "TEXT");
                      ("student_pincode", "TEXT"); ("date_added", "TEXT");
                      ("last_modified", "TEXT") ])
    by (vm_compute; reflexivity).
  split; [exact H|].
  exact (proj1 (proj2 (update_schema_success _ _ H))).
Defined.

End samples.
